(** * pdf-langchain-chat: a shallow embedding of the retrieval-and-answer core

    The development follows the layout of the Python sources:

    - [Settings]           config/settings.py
    - [PromptTemplates]    src/core/prompt_templates.py
    - [DocumentProcessor]  src/core/document_processor.py
    - [EmbeddingManager]   src/core/embedding_manager.py
    - [RAGEngine]          src/core/rag_engine.py
    - [PdfProcessor]       the methods of src/core/document_processor.py
    - [App]                the parts of app.py that touch the index

    Python strings are Rocq strings; [str.lower] is the ASCII case map (it
    agrees with Python on ASCII text and leaves every other character
    alone).  Exceptions are values: a computation that can raise returns a
    [result].  The index directory, the clock and the outcome of every call
    into chromadb, the file system and the language model are explicit. *)

From Stdlib Require Import String Ascii List ZArith Lia Bool Arith.
From Stdlib Require Import DecimalString DecimalZ.
Import ListNotations.
Open Scope string_scope.

(* ===================================================================== *)
(** ** Python values used by the sources                                  *)
(* ===================================================================== *)

Module Py.

(** [str.lower()] on one character: 'A'..'Z' go to 'a'..'z'. *)
Definition lower_char (c : ascii) : ascii :=
  let n := nat_of_ascii c in
  if ((65 <=? n)%nat && (n <=? 90)%nat)%bool then ascii_of_nat (n + 32) else c.

(** [s.lower()] *)
Fixpoint lower (s : string) : string :=
  match s with
  | EmptyString => EmptyString
  | String c s' => String (lower_char c) (lower s')
  end.

(** [kw in s] for two strings: [kw] occurs in [s] as a contiguous run. *)
Fixpoint str_in (kw s : string) : bool :=
  prefix kw s ||
  match s with
  | EmptyString => false
  | String _ s' => str_in kw s'
  end.

(** [any(kw in s for kw in keywords)] *)
Definition any_in (keywords : list string) (s : string) : bool :=
  existsb (fun kw => str_in kw s) keywords.

(** [kw] occurs in [s]: the meaning of [kw in s]. *)
Definition occurs (kw s : string) : Prop :=
  exists before after, s = before ++ kw ++ after.

(** Some keyword of the set occurs in the lower-cased question. *)
Definition hit (keywords : list string) (question : string) : Prop :=
  exists kw, In kw keywords /\ occurs kw (lower question).

(** [s[:n]] *)
Definition take (n : nat) (s : string) : string := substring 0 n s.

(** [str(n)] for an integer. *)
Definition str_of_Z (n : Z) : string := NilZero.string_of_int (Z.to_int n).

(** [sep.join(parts)] *)
Definition join (sep : string) (parts : list string) : string :=
  String.concat sep parts.

(** The double-quote character and the newline, as one-character strings. *)
Definition dq : string := String (ascii_of_nat 34) EmptyString.
Definition nl : string := String (ascii_of_nat 10) EmptyString.

(** A text written line by line (the lines of a triple-quoted literal). *)
Definition text (lines : list string) : string := join nl lines.

(** An exception object: its class and what [str(e)] gives. *)
Record exn : Type := Exception { exc_class : string; exc_str : string }.

(** The outcome of a call that may raise. *)
Inductive result (A : Type) : Type :=
| Ok (a : A)
| Raise (e : exn).
Arguments Ok {A} a.
Arguments Raise {A} e.

Definition rbind {A B} (r : result A) (k : A -> result B) : result B :=
  match r with
  | Ok a => k a
  | Raise e => Raise e
  end.

Declare Scope py_scope.
Delimit Scope py_scope with py.
Notation "x <- e ;; k" := (rbind e (fun x => k))
  (at level 61, e at next level, right associativity) : py_scope.

(** A value stored in a metadata dictionary. *)
Inductive value : Type :=
| VStr (s : string)
| VInt (n : Z).

(** A dictionary with string keys, in insertion order. *)
Definition dict (V : Type) : Type := list (string * V).

(** [d.get(key, default)] *)
Fixpoint get {V} (d : dict V) (key : string) (default : V) : V :=
  match d with
  | [] => default
  | (k, v) :: d' => if String.eqb k key then v else get d' key default
  end.

(** [d[key]]: KeyError when the key is absent. *)
Fixpoint item {V} (d : dict V) (key : string) : result V :=
  match d with
  | [] => Raise (Exception "KeyError" key)
  | (k, v) :: d' => if String.eqb k key then Ok v else item d' key
  end.

(** [d[key] = v]: an existing key keeps its place. *)
Fixpoint set {V} (d : dict V) (key : string) (v : V) : dict V :=
  match d with
  | [] => [(key, v)]
  | (k, v0) :: d' =>
      if String.eqb k key then (k, v) :: d' else (k, v0) :: set d' key v
  end.

(** [v.lower()]: only strings have the method. *)
Definition value_lower (v : value) : result string :=
  match v with
  | VStr s => Ok (lower s)
  | VInt _ =>
      Raise (Exception "AttributeError"
                       "'int' object has no attribute 'lower'")
  end.

End Py.

Import Py.

(** langchain_core.documents.Document *)
Record Document : Type := mkDocument {
  page_content : string;
  metadata : dict value
}.

(* ===================================================================== *)
(** ** config/settings.py                                                 *)
(* ===================================================================== *)

Module Settings.

Definition CHROMA_DB_DIR : string := "data/chroma_db".
Definition CHUNK_SIZE : nat := 1000.
Definition CHUNK_OVERLAP : nat := 200.
Definition EMBEDDING_MODEL : string := "sentence-transformers/all-mpnet-base-v2".
Definition LLM_MODEL : string := "mistral".

End Settings.

(* ===================================================================== *)
(** ** src/core/prompt_templates.py                                       *)
(* ===================================================================== *)

Module PromptTemplates.

(** langchain's PromptTemplate, as far as the sources use it. *)
Record PromptTemplate : Type := mkPromptTemplate {
  input_variables : list string;
  template : string
}.

(** [template.format(context=.., question=..)] for a template whose
    fields are plain names in braces.  [field] holds the name being read
    after an opening brace.  A doubled brace stands for one brace; a name
    without a value raises KeyError, a brace left alone raises
    ValueError. *)
Fixpoint format_from (kwargs : dict string) (field : option string)
         (s : string) : result string :=
  match s with
  | EmptyString =>
      match field with
      | None => Ok EmptyString
      | Some _ =>
          Raise (Exception "ValueError" "expected '}' before end of string")
      end
  | String c s' =>
      match field with
      | None =>
          if Ascii.eqb c "{"%char then format_from kwargs (Some EmptyString) s'
          else if Ascii.eqb c "}"%char then
            match s' with
            | String "}"%char s'' =>
                rbind (format_from kwargs None s'')
                      (fun rest => Ok (String c rest))
            | _ =>
                Raise (Exception "ValueError"
                                 "Single '}' encountered in format string")
            end
          else rbind (format_from kwargs None s')
                     (fun rest => Ok (String c rest))
      | Some name =>
          if Ascii.eqb c "}"%char then
            match find (fun kv => String.eqb (fst kv) name) kwargs with
            | Some kv =>
                rbind (format_from kwargs None s')
                      (fun rest => Ok (snd kv ++ rest))
            | None => Raise (Exception "KeyError" name)
            end
          else if Ascii.eqb c "{"%char && String.eqb name EmptyString then
            rbind (format_from kwargs None s')
                  (fun rest => Ok (String c rest))
          else format_from kwargs (Some (name ++ String c EmptyString)) s'
      end
  end.

Definition format (t : PromptTemplate) (kwargs : dict string) : result string :=
  format_from kwargs None (template t).

Definition BASIC_QA_TEMPLATE : PromptTemplate :=
  mkPromptTemplate ["context"; "question"] (text [
    "";
    "You are a helpful AI assistant that answers questions based on the provided context. ";
    "Your task is to provide accurate, factual answers using only the information given in the context.";
    "";
    "IMPORTANT RULES:";
    "1. Only use information from the provided context";
    "2. If the context doesn't contain enough information to answer the question, say "
      ++ dq ++ "I cannot answer this question based on the provided context" ++ dq;
    "3. Be specific and include relevant numbers, dates, and facts when available";
    "4. Cite the source of information when possible";
    "5. If the question is ambiguous, ask for clarification";
    "";
    "Context: {context}";
    "";
    "Question: {question}";
    "";
    "Answer:" ]).

Definition FINANCIAL_TEMPLATE : PromptTemplate :=
  mkPromptTemplate ["context"; "question"] (text [
    "";
    "You are a financial analyst assistant. Analyze the provided financial context and answer questions with precision.";
    "";
    "ANALYSIS GUIDELINES:";
    "1. Always include specific numbers, percentages, and dates";
    "2. Compare figures when relevant (year-over-year, quarter-over-quarter)";
    "3. Identify trends and patterns in the data";
    "4. Use financial terminology appropriately";
    "5. If asked for calculations, show your reasoning";
    "6. Highlight any significant changes or anomalies";
    "";
    "Context: {context}";
    "";
    "Question: {question}";
    "";
    "Analysis:" ]).

Definition SUMMARY_TEMPLATE : PromptTemplate :=
  mkPromptTemplate ["context"; "question"] (text [
    "";
    "You are a document summarization expert. Create concise, well-structured summaries based on the provided context.";
    "";
    "SUMMARIZATION RULES:";
    "1. Focus on key points and main ideas";
    "2. Use bullet points for better readability";
    "3. Include important numbers and dates";
    "4. Maintain logical flow and structure";
    "5. Keep summaries concise but comprehensive";
    "6. Highlight the most relevant information";
    "";
    "Context: {context}";
    "";
    "Question: {question}";
    "";
    "Summary:" ]).

Definition COMPARISON_TEMPLATE : PromptTemplate :=
  mkPromptTemplate ["context"; "question"] (text [
    "";
    "You are a comparison analysis expert. When comparing items in the context, provide structured analysis.";
    "";
    "COMPARISON GUIDELINES:";
    "1. Create clear side-by-side comparisons";
    "2. Use tables or structured formats when helpful";
    "3. Identify similarities and differences";
    "4. Highlight key differentiators";
    "5. Provide objective analysis";
    "6. Include relevant metrics and data points";
    "";
    "Context: {context}";
    "";
    "Question: {question}";
    "";
    "Comparison:" ]).

End PromptTemplates.

(* ===================================================================== *)
(** ** src/core/document_processor.py                                     *)
(* ===================================================================== *)

Module DocumentProcessor.

(** The arguments [__init__] passes to langchain's
    RecursiveCharacterTextSplitter.  The splitter itself is library code
    and is not part of these sources. *)
Record TextSplitterArgs : Type := mkTextSplitterArgs {
  chunk_size : nat;
  chunk_overlap : nat;
  add_start_index : bool
}.

Definition text_splitter : TextSplitterArgs :=
  mkTextSplitterArgs Settings.CHUNK_SIZE Settings.CHUNK_OVERLAP true.

(** The loop that ends [process_pdf]: every chunk is stamped with the
    file it came from. *)
Definition add_file_metadata (file_path : string) (chunks : list Document)
  : list Document :=
  map (fun chunk =>
         mkDocument (page_content chunk)
                    (set (set (metadata chunk) "source_file" (VStr file_path))
                         "file_type" (VStr "pdf")))
      chunks.

End DocumentProcessor.

(* ===================================================================== *)
(** ** src/core/rag_engine.py                                             *)
(* ===================================================================== *)

Module RAGEngine.

Import PromptTemplates.
Local Open Scope py_scope.

(** The engine object.  [vectorstore q k] is the similarity search behind
    [as_retriever(search_kwargs={"k": k})]; [llm prompt] is one call of
    the Ollama model.  Both are providers outside these sources and both
    may raise. *)
Record t : Type := mkRAGEngine {
  vectorstore : string -> nat -> result (list Document);
  llm : string -> result string;
  templates : dict PromptTemplate
}.

(** [__init__] *)
Definition init (vectorstore : string -> nat -> result (list Document))
           (llm : string -> result string) : t :=
  mkRAGEngine vectorstore llm
    [ ("basic", BASIC_QA_TEMPLATE);
      ("financial", FINANCIAL_TEMPLATE);
      ("summary", SUMMARY_TEMPLATE);
      ("comparison", COMPARISON_TEMPLATE) ].

Definition financial_keywords : list string :=
  ["revenue"; "profit"; "earnings";
   "financial"; "income"; "sales"; "growth"; "percentage"; "%"].

Definition summary_keywords : list string :=
  ["summarize"; "summary"; "overview"; "brief"; "main points"].

Definition comparison_keywords : list string :=
  ["compare"; "versus"; "vs"; "difference"; "similar"; "different"].

Definition _select_template (self : t) (question : string)
  : result PromptTemplate :=
  let question_lower := lower question in
  if any_in financial_keywords question_lower then
    item (templates self) "financial"
  else if any_in summary_keywords question_lower then
    item (templates self) "summary"
  else if any_in comparison_keywords question_lower then
    item (templates self) "comparison"
  else
    item (templates self) "basic".

Definition file_indicators : dict (list string) :=
  [ ("resume", ["resume"; "cv"; "my resume"; "my cv"]);
    ("nike", ["nike"; "10k"; "10-k"; "annual report"]);
    ("research", ["research"; "research report"]);
    ("business plan", ["business plan"; "cozad"; "plan"]) ].

(** The [for file_type, keywords in file_indicators.items()] loop. *)
Fixpoint first_indicated (indicators : dict (list string))
         (question_lower : string) : option string :=
  match indicators with
  | [] => None
  | (file_type, keywords) :: rest =>
      if any_in keywords question_lower then Some file_type
      else first_indicated rest question_lower
  end.

Definition _extract_file_filter (question : string) : option string :=
  first_indicated file_indicators (lower question).

(** One entry of the ["sources"] list. *)
Record Source : Type := mkSource {
  content : string;
  source : value;
  page : value
}.

(** The dictionary [ask_question] returns. *)
Record Outcome : Type := mkOutcome {
  answer : string;
  sources : list Source;
  question : string;
  template_used : string;
  file_filter : option string
}.

(** Truth value of an optional string: None and the empty string are
    false. *)
Definition truthy (s : option string) : bool :=
  match s with
  | None => false
  | Some EmptyString => false
  | Some _ => true
  end.

(** langchain's RetrievalQA over a "stuff" chain, as [ask_question] sets
    it up: the retriever fetches the documents for the query, their
    texts joined by a blank line fill [context], the query fills
    [question], and the filled prompt goes to the model.  The dictionary
    it returns holds the model's text and the retrieved documents. *)
Definition stuff_context (docs : list Document) : string :=
  join (nl ++ nl) (map page_content docs).

Definition qa_chain (self : t) (prompt : PromptTemplate) (k : nat)
           (query : string) : result (string * list Document) :=
  docs <- vectorstore self query k ;;
  filled <- format prompt [("context", stuff_context docs);
                           ("question", query)] ;;
  text <- llm self filled ;;
  Ok (text, docs).

(** The loop that fills [filtered_sources]. *)
Fixpoint filter_sources (file_filter : string) (source_documents : list Document)
  : result (list Document) :=
  match source_documents with
  | [] => Ok []
  | doc :: rest =>
      source_file <- value_lower (get (metadata doc) "source_file" (VStr "")) ;;
      let keep := str_in (lower file_filter) source_file in
      filtered <- filter_sources file_filter rest ;;
      Ok (if keep then doc :: filtered else filtered)
  end.

(** The test of that loop on one document, and what it means: the
    lower-cased scope occurs in the lower-cased source path. *)
Definition source_matches (file_filter : string) (doc : Document) : bool :=
  match get (metadata doc) "source_file" (VStr "") with
  | VStr s => str_in (lower file_filter) (lower s)
  | VInt _ => false
  end.

Definition in_scope (file_filter : string) (doc : Document) : Prop :=
  exists s, get (metadata doc) "source_file" (VStr "") = VStr s /\
            occurs (lower file_filter) (lower s).

Definition format_source (doc : Document) : Source :=
  mkSource (take 200 (page_content doc) ++ "...")
           (get (metadata doc) "source_file" (VStr "Unknown"))
           (get (metadata doc) "page" (VStr "Unknown")).

(** [file_filter] after the first statement of the try block. *)
Definition resolve_file_filter (question : string)
           (file_filter : option string) : option string :=
  if negb (truthy file_filter) then _extract_file_filter question
  else file_filter.

(** The try block of [ask_question], from the template selection on;
    [file_filter] is already resolved. *)
Definition ask_question_try (self : t) (question : string)
           (file_filter : option string) : result Outcome :=
  template <- _select_template self question ;;
  let k := if truthy file_filter then 8 else 6 in
  result <- qa_chain self template k question ;;
  let answer := fst result in
  let source_documents := snd result in
  source_documents <-
    (match file_filter with
     | Some f =>
         if truthy file_filter then
           filtered_sources <- filter_sources f source_documents ;;
           Ok (match filtered_sources with
               | [] => source_documents
               | _ :: _ => filtered_sources
               end)
         else Ok source_documents
     | None => Ok source_documents
     end) ;;
  Ok (mkOutcome answer (map format_source source_documents) question
                "PromptTemplate" file_filter).

(** The except block. *)
Definition ask_question_except (e : exn) (question : string)
           (file_filter : option string) : Outcome :=
  mkOutcome ("Error processing question: " ++ exc_str e) [] question
            "error" file_filter.

(** The degraded outcome the specification describes for an error [e]. *)
Definition degraded (o : Outcome) (e : exn) : Prop :=
  answer o = "Error processing question: " ++ exc_str e /\
  answer o <> "" /\
  sources o = [] /\
  template_used o = "error".

Definition ask_question (self : t) (question : string)
           (file_filter : option string) : Outcome :=
  let file_filter := resolve_file_filter question file_filter in
  match ask_question_try self question file_filter with
  | Ok outcome => outcome
  | Raise e => ask_question_except e question file_filter
  end.

End RAGEngine.

(* ===================================================================== *)
(** ** src/core/embedding_manager.py                                      *)
(* ===================================================================== *)

Module EmbeddingManager.

(** *** The world the manager acts on

    The manager owns one directory, [Settings.CHROMA_DB_DIR].  What is on
    disk is either nothing (the directory is absent) or the collections of
    the chromadb store, in the order [list_collections] enumerates them.
    Every call that leaves the Python sources (file system, chromadb,
    langchain's Chroma, the clock) is recorded in [calls]; whether the
    n-th such call raises, what the clock shows at that moment, and where
    in the enumeration a collection created by that call comes (chromadb
    does not enumerate in the order of creation), is given by the world,
    so that a statement over all worlds covers every behaviour of the
    providers. *)

Record Collection : Type := mkCollection {
  name : string;
  items : list Document
}.

Inductive Call : Type :=
| CallExists
| CallRmtree
| CallMkdir
| CallPersistentClient
| CallTime
| CallFromDocuments (collection_name : string)
| CallListCollections
| CallChroma (collection_name : string)
| CallGetCollection (collection_name : string)
| CallCount (collection_name : string).

Record World : Type := mkWorld {
  chroma_dir : option (list Collection);
  calls : list Call;
  raises : nat -> option exn;
  clock : nat -> Z;
  slot : nat -> nat;
  stdout : list string
}.

Definition with_dir (d : option (list Collection)) (w : World) : World :=
  mkWorld d (calls w) (raises w) (clock w) (slot w) (stdout w).

Definition with_call (c : Call) (w : World) : World :=
  mkWorld (chroma_dir w) (calls w ++ [c]) (raises w) (clock w) (slot w)
          (stdout w).

Definition with_line (s : string) (w : World) : World :=
  mkWorld (chroma_dir w) (calls w) (raises w) (clock w) (slot w)
          (stdout w ++ [s]).

(** *** Computations: a state monad over the world, with exceptions.
    The world an exception leaves behind is kept: what a failed call did
    before it raised is not undone. *)

Definition M (A : Type) : Type := World -> result A * World.

Definition ret {A} (a : A) : M A := fun w => (Ok a, w).

Definition raise {A} (e : exn) : M A := fun w => (Raise e, w).

Definition bind {A B} (m : M A) (k : A -> M B) : M B :=
  fun w =>
    match m w with
    | (Ok a, w') => k a w'
    | (Raise e, w') => (Raise e, w')
    end.

(** [try: body  except Exception as e: handler e] *)
Definition try_except {A} (body : M A) (handler : exn -> M A) : M A :=
  fun w =>
    match body w with
    | (Ok a, w') => (Ok a, w')
    | (Raise e, w') => handler e w'
    end.

Declare Scope io_scope.
Delimit Scope io_scope with io.
Notation "x <- m ;; k" := (bind m (fun x => k))
  (at level 61, m at next level, right associativity) : io_scope.
Notation "m ;; k" := (bind m (fun _ => k))
  (at level 61, right associativity) : io_scope.
Local Open Scope io_scope.

Definition print (s : string) : M unit := fun w => (Ok tt, with_line s w).

(** A call that leaves the sources.  It is recorded; if the world says
    so it raises and the directory is left as it was, otherwise [effect]
    gives its value and the new content of the directory. *)
Definition external {A} (c : Call)
           (effect : option (list Collection) ->
                     result A * option (list Collection)) : M A :=
  fun w =>
    match raises w (length (calls w)) with
    | Some e => (Raise e, with_call c w)
    | None =>
        let (r, d) := effect (chroma_dir w) in
        (r, with_dir d (with_call c w))
    end.

(** [gc.collect()] *)
Definition gc_collect : M unit := ret tt.

(** [int(time.time())]: the clock, in whole seconds. *)
Definition time_time : M Z :=
  fun w => (Ok (clock w (length (calls w))), with_call CallTime w).

Definition no_store {A} : result A :=
  Raise (Exception "InternalError" "unable to open database file").

(** [self.chroma_dir.exists()] *)
Definition path_exists : M bool :=
  external CallExists
    (fun d => (Ok (match d with Some _ => true | None => false end), d)).

(** [shutil.rmtree(self.chroma_dir)] *)
Definition shutil_rmtree : M unit :=
  external CallRmtree
    (fun d => match d with
              | Some _ => (Ok tt, None)
              | None =>
                  (Raise (Exception "FileNotFoundError" Settings.CHROMA_DB_DIR),
                   None)
              end).

(** [self.chroma_dir.mkdir(parents=True, exist_ok=True)] *)
Definition path_mkdir : M unit :=
  external CallMkdir
    (fun d => (Ok tt, Some (match d with Some cs => cs | None => [] end))).

(** A chromadb client on the directory. *)
Record Client : Type := mkClient { path : string }.

(** [chromadb.PersistentClient(path=str(self.chroma_dir), settings=...)];
    chromadb creates the directory when it is absent. *)
Definition PersistentClient : M Client :=
  external CallPersistentClient
    (fun d => (Ok (mkClient Settings.CHROMA_DB_DIR),
               Some (match d with Some cs => cs | None => [] end))).

(** The langchain vector store handle: a client and a collection name. *)
Record Chroma : Type := mkChroma {
  client : Client;
  collection_name : string
}.

(** Adding documents to the collection [n] of the enumeration [cs]. A
    collection that is there keeps its place and gets the documents at
    its end; one that is absent is created, and comes at place [pos] of
    the enumeration (last when [pos] is beyond the end). *)
Fixpoint extend (n : string) (docs : list Document) (cs : list Collection)
  : list Collection :=
  match cs with
  | [] => []
  | c :: cs' =>
      if String.eqb (name c) n then mkCollection n (items c ++ docs) :: cs'
      else c :: extend n docs cs'
  end.

Fixpoint insert_at (pos : nat) (c : Collection) (cs : list Collection)
  : list Collection :=
  match pos, cs with
  | S pos', c0 :: cs' => c0 :: insert_at pos' c cs'
  | _, _ => c :: cs
  end.

Definition add_to (pos : nat) (n : string) (docs : list Document)
           (cs : list Collection) : list Collection :=
  if existsb (fun c => String.eqb (name c) n) cs then extend n docs cs
  else insert_at pos (mkCollection n docs) cs.

(** [Chroma.from_documents(documents=, embedding=, client=, collection_name=)]:
    the documents are embedded and stored in the named collection. *)
Definition Chroma_from_documents (documents : list Document) (cl : Client)
           (n : string) : M Chroma :=
  fun w =>
    external (CallFromDocuments n)
      (fun d => match d with
                | Some cs =>
                    (Ok (mkChroma cl n),
                     Some (add_to (slot w (length (calls w))) n documents cs))
                | None => (no_store, None)
                end) w.

(** [client.list_collections()] *)
Definition list_collections (cl : Client) : M (list Collection) :=
  external CallListCollections
    (fun d => match d with
              | Some cs => (Ok cs, d)
              | None => (no_store, None)
              end).

(** [Chroma(client=, collection_name=, embedding_function=)]: opens the
    collection, creating it when absent. *)
Definition Chroma_open (cl : Client) (n : string) : M Chroma :=
  fun w =>
    external (CallChroma n)
      (fun d => match d with
                | Some cs =>
                    (Ok (mkChroma cl n),
                     Some (add_to (slot w (length (calls w))) n [] cs))
                | None => (no_store, None)
                end) w.

(** [client.get_collection(name)] *)
Definition get_collection (cl : Client) (n : string) : M string :=
  external (CallGetCollection n)
    (fun d => match d with
              | Some cs =>
                  (if existsb (fun c => String.eqb (name c) n) cs then Ok n
                   else Raise (Exception "ValueError"
                                 ("Collection " ++ n ++ " does not exist.")),
                   d)
              | None => (no_store, None)
              end).

(** [collection.count()] *)
Definition collection_count (n : string) : M nat :=
  external (CallCount n)
    (fun d => match d with
              | Some cs =>
                  (match find (fun c => String.eqb (name c) n) cs with
                   | Some c => Ok (length (items c))
                   | None => Raise (Exception "ValueError"
                                 ("Collection " ++ n ++ " does not exist."))
                   end, d)
              | None => (no_store, None)
              end).

Definition str_of_nat (n : nat) : string := str_of_Z (Z.of_nat n).

(** *** The methods of the class *)

Definition _clear_chroma_db : M bool :=
  try_except
    (there <- path_exists ;;
     (if there : bool then
        shutil_rmtree ;;
        print ("Cleared ChromaDB at " ++ Settings.CHROMA_DB_DIR)
      else ret tt) ;;
     path_mkdir ;;
     gc_collect ;;
     ret true)
    (fun e =>
       print ("Error clearing ChromaDB: " ++ exc_str e) ;;
       ret false).

Definition _create_chroma_client : M Client :=
  try_except
    (gc_collect ;;
     cl <- PersistentClient ;;
     ret cl)
    (fun e =>
       print ("Error creating ChromaDB client: " ++ exc_str e) ;;
       _clear_chroma_db ;;
       gc_collect ;;
       PersistentClient).

Definition create_embeddings (documents : list Document) : M (option Chroma) :=
  match documents with
  | [] =>
      print "No documents to process" ;;
      ret None
  | _ :: _ =>
      print ("Creating embeddings for " ++ str_of_nat (length documents)
             ++ " documents...") ;;
      try_except
        (_clear_chroma_db ;;
         gc_collect ;;
         cl <- _create_chroma_client ;;
         now <- time_time ;;
         let collection_name := "documents_" ++ str_of_Z now in
         vectorstore <- Chroma_from_documents documents cl collection_name ;;
         print ("Successfully created embeddings and stored in "
                ++ Settings.CHROMA_DB_DIR) ;;
         ret (Some vectorstore))
        (fun e =>
           print ("Error creating embeddings: " ++ exc_str e) ;;
           try_except
             (print "Attempting complete reset..." ;;
              _clear_chroma_db ;;
              gc_collect ;;
              cl <- _create_chroma_client ;;
              now <- time_time ;;
              let collection_name := "documents_" ++ str_of_Z now in
              vectorstore <- Chroma_from_documents documents cl collection_name ;;
              print "Successfully created embeddings after reset" ;;
              ret (Some vectorstore))
             (fun e2 =>
                print ("Failed to create embeddings after reset: "
                       ++ exc_str e2) ;;
                raise e2))
  end.

Definition load_existing_vectorstore : M (option Chroma) :=
  try_except
    (cl <- _create_chroma_client ;;
     collections <- list_collections cl ;;
     match collections with
     | [] =>
         print "No existing collections found" ;;
         ret None
     | first :: _ =>
         let collection_name := name first in
         vectorstore <- Chroma_open cl collection_name ;;
         collection <- get_collection cl collection_name ;;
         count <- collection_count collection ;;
         print ("Loaded existing vectorstore with " ++ str_of_nat count
                ++ " documents") ;;
         ret (Some vectorstore)
     end)
    (fun e =>
       print ("Error loading existing vectorstore: " ++ exc_str e) ;;
       ret None).

(** One pass of [create_embeddings] over the store, as both the try block
    and the reset in its handler run it: clear the store (which recreates
    the directory), open a client, take a name from the clock, build. *)
Definition reset_and_build (documents : list Document) : M Chroma :=
  _clear_chroma_db ;;
  gc_collect ;;
  cl <- _create_chroma_client ;;
  now <- time_time ;;
  Chroma_from_documents documents cl ("documents_" ++ str_of_Z now).

(** How many of the recorded calls are builds of a collection. *)
Definition is_build (c : Call) : bool :=
  match c with
  | CallFromDocuments _ => true
  | _ => false
  end.

Definition builds (cs : list Call) : nat := length (filter is_build cs).

(** The line that announces the reset in the handler of
    [create_embeddings]. *)
Definition reset_line : string := "Attempting complete reset...".

(** The world when the first pass starts, and when the reset starts
    after the first pass has raised [e]: only lines were printed. *)
Definition announced (documents : list Document) (w : World) : World :=
  with_line ("Creating embeddings for " ++ str_of_nat (length documents)
             ++ " documents...") w.

Definition reset_announced (e : exn) (w : World) : World :=
  with_line reset_line
            (with_line ("Error creating embeddings: " ++ exc_str e) w).

(** How often a line was printed. *)
Definition printed (line : string) (out : list string) : nat :=
  count_occ string_dec out line.

(** The item count of the collection named [n] on disk, if it is there. *)
Definition count_on_disk (n : string) (w : World) : option nat :=
  match chroma_dir w with
  | Some cs =>
      option_map (fun c => length (items c))
                 (find (fun c => String.eqb (name c) n) cs)
  | None => None
  end.

(** What a computation may add to the world: it keeps the answers of
    the providers and the clock, it only appends to the recorded calls
    and to the output, with at most [nb] builds among the new calls and
    without printing the reset line. *)
Record grows (nb : nat) (w w' : World) : Prop := mkGrows {
  grows_raises : raises w' = raises w;
  grows_clock : clock w' = clock w;
  grows_calls :
    exists new, calls w' = (calls w ++ new)%list /\ builds new <= nb;
  grows_stdout :
    exists out, stdout w' = (stdout w ++ out)%list /\ printed reset_line out = 0
}.

Definition within {A} (nb : nat) (m : M A) : Prop :=
  forall w, grows nb w (snd (m w)).

End EmbeddingManager.

(* ===================================================================== *)
(** ** src/core/document_processor.py, the methods                        *)
(* ===================================================================== *)

Module PdfProcessor.

Import DocumentProcessor.
Local Open Scope py_scope.

(** The processor with the two library objects it drives: [loader path]
    is [PyPDFLoader(str(file_path)).load()], one document per page, and
    [splitter args documents] is [split_documents] of the
    RecursiveCharacterTextSplitter built with [args].  Both are outside
    these sources and both may raise. *)
Record t : Type := mkProcessor {
  loader : string -> result (list Document);
  splitter : TextSplitterArgs -> list Document -> result (list Document)
}.

Definition load_pdf (self : t) (file_path : string)
  : result (list Document) :=
  loader self file_path.

Definition split_documents (self : t) (documents : list Document)
  : result (list Document) :=
  splitter self text_splitter documents.

Definition process_pdf (self : t) (file_path : string)
  : result (list Document) :=
  documents <- load_pdf self file_path ;;
  chunks <- split_documents self documents ;;
  Ok (add_file_metadata file_path chunks).

End PdfProcessor.

(* ===================================================================== *)
(** ** app.py, the parts that touch the index                             *)
(* ===================================================================== *)

Module App.

Import EmbeddingManager.
Local Open Scope io_scope.

(** Streamlit's message boxes; what they show is recorded with the
    printed lines. *)
Definition st_success (s : string) : M unit := print s.
Definition st_error (s : string) : M unit := print s.

(** [clear_chroma_db()], on the directory of the index. *)
Definition clear_chroma_db : M bool :=
  there <- path_exists ;;
  if there : bool then
    try_except
      (shutil_rmtree ;;
       st_success "Cleared old embeddings database" ;;
       ret true)
      (fun e =>
         st_error ("Error clearing embeddings: " ++ exc_str e) ;;
         ret false)
  else ret true.

(** The filter [main] passes to [ask_question] for a choice of the
    document select box. *)
Definition selected_filter (file_filter : string) : option string :=
  if negb (String.eqb file_filter "All Documents") then Some file_filter
  else None.

(** [documents_dir / filename] for a plain file name. *)
Definition documents_path (filename : string) : string :=
  "data/documents/" ++ filename.

End App.

(* ===================================================================== *)
(** ** Notions used to state properties of the manager                    *)
(* ===================================================================== *)

Module ManagerSpec.

Import EmbeddingManager.

(** From now on no call into the file system, the store or the
    embedding provider raises. *)
Definition healthy (w : World) : Prop :=
  forall n, length (calls w) <= n -> raises w n = None.

(** Of the calls to come only the one after the next raises (in a
    rebuild: the removal of the directory), and it raises [e]. *)
Definition only_second_call_fails (e : exn) (w : World) : Prop :=
  raises w (length (calls w) + 1) = Some e /\
  forall n, length (calls w) <= n -> n <> length (calls w) + 1 ->
            raises w n = None.

(** The first call to come raises [e]; no later call raises. *)
Definition fails_once (e : exn) (w : World) : Prop :=
  raises w (length (calls w)) = Some e /\
  forall n, length (calls w) < n -> raises w n = None.

Definition is_client_call (c : Call) : bool :=
  match c with
  | CallPersistentClient => true
  | _ => false
  end.

(** How many of the recorded calls create a client. *)
Definition client_calls (cs : list Call) : nat :=
  length (filter is_client_call cs).

(** The collection named [n] is on disk and its items end with [docs]. *)
Definition stored (n : string) (docs : list Document) (w : World) : Prop :=
  exists cs c older,
    chroma_dir w = Some cs /\ In c cs /\ name c = n /\
    items c = (older ++ docs)%list.

End ManagerSpec.

(* ===================================================================== *)
(** ** Concrete inputs used below                                         *)
(* ===================================================================== *)

Module Examples.

Import RAGEngine.

Definition nike_chunk : Document :=
  mkDocument "Nike revenue was 51.2 billion dollars in fiscal 2023."
    [ ("page", VInt 31);
      ("start_index", VInt 0);
      ("source_file", VStr "data/documents/Nike_10K.pdf");
      ("file_type", VStr "pdf") ].

Definition resume_chunk : Document :=
  mkDocument "Worked as a data analyst at Acme from 2019 to 2022."
    [ ("page", VInt 0);
      ("start_index", VInt 0);
      ("source_file", VStr "data/documents/resume.pdf");
      ("file_type", VStr "pdf") ].

(** A store that answers every query with the same two chunks. *)
Definition two_chunk_store (q : string) (k : nat) : result (list Document) :=
  Ok (firstn k [nike_chunk; resume_chunk]).

(** A store that cannot be reached. *)
Definition broken_store (q : string) (k : nat) : result (list Document) :=
  Raise (Exception "InternalError" "no such table: collections").

(** A model that answers with the prompt it was given. *)
Definition echo_llm (prompt : string) : result string := Ok prompt.

(** A model that cannot be reached. *)
Definition down_llm (prompt : string) : result string :=
  Raise (Exception "ConnectionError" "Ollama call failed with status code 404").

Definition nike_question : string := "What is Nike's revenue in 2023?".

Import EmbeddingManager.

(** A store left with one generation that holds no item. *)
Definition empty_generation_world : World :=
  mkWorld (Some [mkCollection "documents_1700000000" []])
          [] (fun _ => None) (fun n => Z.of_nat n + 1700000500)%Z (fun n => n) [].

(** A store with one generation of two chunks. *)
Definition indexed_world : World :=
  mkWorld (Some [mkCollection "documents_1700000000"
                              [nike_chunk; resume_chunk]])
          [] (fun _ => None) (fun n => Z.of_nat n + 1700000500)%Z (fun n => n) [].

Definition embedding_error : exn :=
  Exception "RuntimeError" "embedding model is not available".

(** The same store when the embedding provider is down: the calls that
    build a collection (the sixth and the twelfth call) raise. *)
Definition provider_down_world : World :=
  mkWorld (Some [mkCollection "documents_1700000000"
                              [nike_chunk; resume_chunk]])
          []
          (fun n => if (Nat.eqb n 5 || Nat.eqb n 11)%bool
                    then Some embedding_error else None)
          (fun n => Z.of_nat n + 1700000500)%Z (fun n => n) [].

End Examples.

Module MoreExamples.

Import EmbeddingManager Examples.

(** A chunk whose source is not a string. *)
Definition odd_chunk : Document :=
  mkDocument "A chunk stored by another tool."
    [ ("page", VInt 2); ("source_file", VInt 7) ].

(** A chunk with no source at all. *)
Definition bare_chunk : Document :=
  mkDocument "A chunk without metadata." [].

Definition odd_store (q : string) (k : nat) : result (list Document) :=
  Ok (firstn k [nike_chunk; odd_chunk]).

(** The store of [indexed_world] when the first call to come raises and
    every later call goes through. *)
Definition locked_error : exn :=
  Exception "PermissionError" "database is locked".

Definition first_call_fails_world : World :=
  mkWorld (Some [mkCollection "documents_1700000000"
                              [nike_chunk; resume_chunk]])
          []
          (fun n => if Nat.eqb n 0 then Some locked_error else None)
          (fun n => Z.of_nat n + 1700000500)%Z (fun n => n) [].

(** The store of [indexed_world] when only the removal of the directory
    raises. *)
Definition removal_fails_world : World :=
  mkWorld (Some [mkCollection "documents_1700000000"
                              [nike_chunk; resume_chunk]])
          []
          (fun n => if Nat.eqb n 1 then Some locked_error else None)
          (fun n => Z.of_nat n + 1700000500)%Z (fun n => n) [].

(** The same, with a store that enumerates a new collection first. *)
Definition removal_fails_new_first_world : World :=
  mkWorld (Some [mkCollection "documents_1700000000"
                              [nike_chunk; resume_chunk]])
          []
          (fun n => if Nat.eqb n 1 then Some locked_error else None)
          (fun n => Z.of_nat n + 1700000500)%Z (fun _ => 0) [].




(** A loader of two pages and a splitter that keeps each page whole. *)
Definition two_page_processor : PdfProcessor.t :=
  PdfProcessor.mkProcessor
    (fun file_path =>
       Ok [mkDocument "Page one." [("source", VStr file_path); ("page", VInt 0)];
           mkDocument "Page two." [("source", VStr file_path); ("page", VInt 1)]])
    (fun args documents => Ok documents).

End MoreExamples.

(* ===================================================================== *)
(** * Properties                                                          *)
(* ===================================================================== *)

(** ** Strings *)

Module PyFacts.

Lemma prefix_iff (kw s : string) :
  prefix kw s = true <-> exists after, s = kw ++ after.
Proof.
  revert s; induction kw as [|c kw IH]; intros s.
  - split; [intros _; exists s; reflexivity | destruct s; reflexivity].
  - destruct s as [|d s]; simpl.
    + split; [discriminate | intros [after H]; discriminate].
    + destruct (ascii_dec c d) as [->|Hcd].
      * rewrite IH. split; intros [after H]; exists after.
        -- now rewrite H.
        -- now injection H.
      * split; [discriminate|].
        intros [after H]. injection H as H1 _. congruence.
Qed.

Lemma str_in_iff (kw s : string) : str_in kw s = true <-> occurs kw s.
Proof.
  unfold occurs. induction s as [|c s IH].
  - cbn [str_in]. rewrite orb_false_r, prefix_iff. split.
    + intros [after H]. exists EmptyString, after. exact H.
    + intros [before [after H]]. destruct before; simpl in H.
      * now exists after.
      * discriminate.
  - cbn [str_in]. rewrite orb_true_iff, prefix_iff, IH. split.
    + intros [[after H] | [before [after H]]].
      * exists EmptyString, after. exact H.
      * exists (String c before), after. simpl. now rewrite H.
    + intros [before [after H]]. destruct before as [|b before]; simpl in H.
      * left. now exists after.
      * right. exists before, after. now injection H.
Qed.

Lemma any_in_iff (keywords : list string) (question : string) :
  any_in keywords (lower question) = true <-> hit keywords question.
Proof.
  unfold any_in, hit. rewrite existsb_exists.
  split; intros [kw [Hin H]]; exists kw; split; auto; now apply str_in_iff.
Qed.

Lemma any_in_false_iff (keywords : list string) (question : string) :
  any_in keywords (lower question) = false <-> ~ hit keywords question.
Proof.
  rewrite <- any_in_iff. destruct (any_in keywords (lower question)); split;
    congruence.
Qed.

(** Lower-casing does not depend on the case of the input. *)
Lemma lower_char_idem (c : ascii) : lower_char (lower_char c) = lower_char c.
Proof.
  destruct c as [[] [] [] [] [] [] [] []]; reflexivity.
Qed.

Lemma lower_idem (s : string) : lower (lower s) = lower s.
Proof.
  induction s as [|c s IH]; simpl; [reflexivity|].
  now rewrite lower_char_idem, IH.
Qed.



End PyFacts.

(** ** The query router (rag_engine.py) *)

Module RouterFacts.

Import PromptTemplates RAGEngine PyFacts.

Lemma templates_differ :
  FINANCIAL_TEMPLATE <> SUMMARY_TEMPLATE /\
  FINANCIAL_TEMPLATE <> COMPARISON_TEMPLATE /\
  FINANCIAL_TEMPLATE <> BASIC_QA_TEMPLATE /\
  SUMMARY_TEMPLATE <> COMPARISON_TEMPLATE /\
  SUMMARY_TEMPLATE <> BASIC_QA_TEMPLATE /\
  COMPARISON_TEMPLATE <> BASIC_QA_TEMPLATE.
Proof.
  repeat split; intros H; apply (f_equal template) in H;
    apply String.eqb_eq in H; vm_compute in H; discriminate.
Qed.

(** The selection never raises: the four keys are in the table. *)
Lemma select_template_total vs model q :
  exists tpl, _select_template (init vs model) q = Ok tpl.
Proof.
  unfold _select_template.
  destruct (any_in financial_keywords (lower q)); [eexists; reflexivity|].
  destruct (any_in summary_keywords (lower q)); [eexists; reflexivity|].
  destruct (any_in comparison_keywords (lower q)); eexists; reflexivity.
Qed.

(** C7. Style selection is a case-insensitive substring match of the
    question against the keyword sets, tried in the order financial,
    summary, comparison; the first set with a keyword in the lower-cased
    question decides, and the basic template is chosen exactly when no
    keyword of any set occurs.  The two questions of the specification
    route to the financial and to the summary template. *)
Theorem select_template_priority
        (vs : string -> nat -> result (list Document))
        (model : string -> result string) (q : string) :
  let self := init vs model in
  (_select_template self q = Ok FINANCIAL_TEMPLATE
     <-> hit financial_keywords q) /\
  (_select_template self q = Ok SUMMARY_TEMPLATE
     <-> ~ hit financial_keywords q /\ hit summary_keywords q) /\
  (_select_template self q = Ok COMPARISON_TEMPLATE
     <-> ~ hit financial_keywords q /\ ~ hit summary_keywords q /\
         hit comparison_keywords q) /\
  (_select_template self q = Ok BASIC_QA_TEMPLATE
     <-> ~ hit financial_keywords q /\ ~ hit summary_keywords q /\
         ~ hit comparison_keywords q) /\
  _select_template self "What is Nike's revenue in 2023?"
    = Ok FINANCIAL_TEMPLATE /\
  _select_template self "Summarize my experience from my resume"
    = Ok SUMMARY_TEMPLATE.
Proof.
  destruct templates_differ as (Hfs & Hfc & Hfb & Hsc & Hsb & Hcb).
  cbv zeta. unfold _select_template.
  rewrite <- !any_in_false_iff, <- !any_in_iff.
  destruct (any_in financial_keywords (lower q)) eqn:Ef;
    [|destruct (any_in summary_keywords (lower q)) eqn:Es;
      [|destruct (any_in comparison_keywords (lower q)) eqn:Ec]];
    cbn [item init templates String.eqb Ascii.eqb Bool.eqb];
    (repeat split; try reflexivity; try tauto; try discriminate;
     try (intros H; injection H as H; congruence);
     try (intros H; exfalso; intuition congruence)).
Qed.

(** First match over an ordered table of groups. *)
Lemma first_indicated_some (table : dict (list string)) (q ft : string) :
  first_indicated table (lower q) = Some ft <->
  exists earlier keywords later,
    table = (earlier ++ (ft, keywords) :: later)%list /\
    hit keywords q /\
    Forall (fun group => ~ hit (snd group) q) earlier.
Proof.
  induction table as [|[ft0 kws0] table IH]; simpl.
  - split; [discriminate|].
    intros (earlier & kws & later & H & _). destruct earlier; discriminate.
  - destruct (any_in kws0 (lower q)) eqn:E.
    + split.
      * intros H. injection H as <-.
        exists [], kws0, table. repeat split; auto. now apply any_in_iff.
      * intros (earlier & kws & later & H & Hhit & Hearlier).
        destruct earlier as [|g earlier]; simpl in H.
        -- congruence.
        -- inversion H; subst. inversion Hearlier as [|? ? Hno _]; subst.
           simpl in Hno. apply any_in_iff in E. contradiction.
    + rewrite IH. split.
      * intros (earlier & kws & later & -> & Hhit & Hearlier).
        exists ((ft0, kws0) :: earlier), kws, later. repeat split; auto.
        constructor; auto. simpl. now apply any_in_false_iff.
      * intros (earlier & kws & later & H & Hhit & Hearlier).
        destruct earlier as [|g earlier]; simpl in H.
        -- inversion H; subst. apply any_in_false_iff in E. contradiction.
        -- inversion H; subst. exists earlier, kws, later.
           repeat split; auto. now inversion Hearlier.
Qed.

Lemma first_indicated_none (table : dict (list string)) (q : string) :
  first_indicated table (lower q) = None <->
  Forall (fun group => ~ hit (snd group) q) table.
Proof.
  induction table as [|[ft0 kws0] table IH]; simpl.
  - split; auto.
  - destruct (any_in kws0 (lower q)) eqn:E.
    + split; [discriminate|]. intros H. inversion H as [|? ? Hno _]; subst.
      simpl in Hno. apply any_in_iff in E. contradiction.
    + rewrite IH. split.
      * intros H. constructor; auto. simpl. now apply any_in_false_iff.
      * intros H. now inversion H.
Qed.

(** C8. Scope extraction goes through the groups resume, nike, research,
    business plan in this order; it returns a group exactly when one of
    the group's keywords occurs in the lower-cased question and no
    keyword of an earlier group does, and it returns none exactly when no
    keyword of any group occurs. *)
Theorem extract_file_filter_first_match (q : string) :
  map fst file_indicators = ["resume"; "nike"; "research"; "business plan"] /\
  (forall ft,
      _extract_file_filter q = Some ft <->
      exists earlier keywords later,
        file_indicators = (earlier ++ (ft, keywords) :: later)%list /\
        hit keywords q /\
        Forall (fun group => ~ hit (snd group) q) earlier) /\
  (_extract_file_filter q = None <->
   Forall (fun group => ~ hit (snd group) q) file_indicators).
Proof.
  split; [reflexivity|]. split.
  - intros ft. apply first_indicated_some.
  - apply first_indicated_none.
Qed.

(** The four questions of the specification's test list. *)
Example routing_examples :
  forall vs model,
    let self := init vs model in
    (_select_template self "What is Nike's revenue in 2023?",
     _extract_file_filter "What is Nike's revenue in 2023?")
      = (Ok FINANCIAL_TEMPLATE, Some "nike") /\
    (_select_template self "Summarize my experience from my resume",
     _extract_file_filter "Summarize my experience from my resume")
      = (Ok SUMMARY_TEMPLATE, Some "resume") /\
    (_select_template self "Compare Nike's performance in different regions",
     _extract_file_filter "Compare Nike's performance in different regions")
      = (Ok COMPARISON_TEMPLATE, Some "nike") /\
    (_select_template self "How many distribution centers does Nike have?",
     _extract_file_filter "How many distribution centers does Nike have?")
      = (Ok BASIC_QA_TEMPLATE, Some "nike").
Proof. intros vs model. cbv zeta. repeat split. Qed.

(** A keyword of an earlier set wins over one of a later set, and the
    match ignores the case of the question. *)
Example priority_example :
  forall vs model,
    _select_template (init vs model) "COMPARE the SALES of both years"
    = Ok FINANCIAL_TEMPLATE.
Proof. reflexivity. Qed.

(** Filling one of the four templates never raises. *)
Lemma format_templates_total (tpl : PromptTemplate) (c q : string) :
  In tpl [BASIC_QA_TEMPLATE; FINANCIAL_TEMPLATE;
          SUMMARY_TEMPLATE; COMPARISON_TEMPLATE] ->
  exists filled, format tpl [("context", c); ("question", q)] = Ok filled.
Proof.
  intros [<- | [<- | [<- | [<- | []]]]];
    match goal with
    | |- exists filled, ?f = _ =>
        exists (match f with Ok s => s | Raise _ => EmptyString end)
    end; vm_compute; reflexivity.
Qed.

End RouterFacts.

(** ** The chunker (document_processor.py) *)

Module ChunkerFacts.

Import DocumentProcessor.

(** The arguments of the splitter: 1000 characters, 200 of overlap, start
    offsets recorded. *)
Lemma text_splitter_arguments :
  chunk_size text_splitter = 1000 /\
  chunk_overlap text_splitter = 200 /\
  add_start_index text_splitter = true /\
  chunk_overlap text_splitter <= chunk_size text_splitter.
Proof.
  repeat (split; [reflexivity|]).
  unfold text_splitter, Settings.CHUNK_OVERLAP, Settings.CHUNK_SIZE. simpl. lia.
Qed.

Lemma get_set_same {V} (d : dict V) (key : string) (v default : V) :
  get (set d key v) key default = v.
Proof.
  induction d as [|[k v0] d IH]; simpl.
  - now rewrite String.eqb_refl.
  - destruct (String.eqb k key) eqn:E; simpl; rewrite E; auto.
Qed.

Lemma get_set_other {V} (d : dict V) (key key' : string) (v default : V) :
  key <> key' -> get (set d key v) key' default = get d key' default.
Proof.
  intros Hne. induction d as [|[k v0] d IH]; simpl.
  - apply String.eqb_neq in Hne. now rewrite Hne.
  - destruct (String.eqb k key) eqn:E; simpl.
    + apply String.eqb_eq in E. subst k.
      apply String.eqb_neq in Hne. now rewrite Hne.
    + destruct (String.eqb k key'); auto.
Qed.

(** Every chunk [process_pdf] returns carries the path of its file. *)
Lemma add_file_metadata_source (file_path : string) (chunks : list Document)
      (chunk : Document) :
  In chunk (add_file_metadata file_path chunks) ->
  get (metadata chunk) "source_file" (VStr EmptyString) = VStr file_path.
Proof.
  unfold add_file_metadata. rewrite in_map_iff. intros [c [<- _]]. simpl.
  rewrite get_set_other by discriminate. apply get_set_same.
Qed.

End ChunkerFacts.

(** ** The answer assembler (rag_engine.py) *)

Module AnswerFacts.

Import PromptTemplates RAGEngine PyFacts RouterFacts Examples.
Local Open Scope py_scope.

Lemma truthy_some (s : option string) :
  truthy s = true -> exists f, s = Some f /\ f <> EmptyString.
Proof.
  destruct s as [[|c f]|]; simpl; try discriminate.
  intros _. exists (String c f). split; [reflexivity | discriminate].
Qed.

(** The loop keeps, in order, the documents whose source matches. *)
Lemma filter_sources_ok (f : string) (docs kept : list Document) :
  filter_sources f docs = Ok kept -> kept = filter (source_matches f) docs.
Proof.
  revert kept; induction docs as [|d docs IH]; intros kept; simpl.
  - now intros [= <-].
  - unfold source_matches at 1.
    destruct (get (metadata d) "source_file" (VStr EmptyString)) as [s|n];
      simpl; [|discriminate].
    destruct (filter_sources f docs) as [tail|e]; simpl; [|discriminate].
    intros [= <-]. rewrite (IH tail eq_refl).
    destruct (str_in (lower f) (lower s)); reflexivity.
Qed.

Lemma source_matches_iff (f : string) (d : Document) :
  source_matches f d = true <-> in_scope f d.
Proof.
  unfold source_matches, in_scope.
  destruct (get (metadata d) "source_file" (VStr EmptyString)) as [s|n].
  - rewrite str_in_iff. split.
    + intros H. now exists s.
    + now intros [s' [[= <-] H]].
  - split; [discriminate | now intros [s [H _]]].
Qed.

(** What the try block computes once a scope is set and the retrieval
    has answered. *)
Lemma ask_question_try_scoped vs model q f docs tpl :
  truthy (Some f) = true ->
  vs q 8 = Ok docs ->
  _select_template (init vs model) q = Ok tpl ->
  ask_question_try (init vs model) q (Some f) =
    (filled <- format tpl [("context", stuff_context docs); ("question", q)] ;;
     text <- model filled ;;
     kept <- filter_sources f docs ;;
     Ok (mkOutcome text
           (map format_source
                (match kept with [] => docs | _ :: _ => kept end))
           q "PromptTemplate" (Some f))).
Proof.
  intros Ht Hvs Htpl. unfold ask_question_try, qa_chain.
  rewrite Htpl, Ht. cbn [rbind vectorstore llm init]. rewrite Hvs.
  cbn [rbind].
  destruct (format tpl _) as [filled|e]; cbn [rbind]; [|reflexivity].
  destruct (model filled) as [text|e]; cbn [rbind fst snd]; [|reflexivity].
  destruct (filter_sources f docs) as [kept|e]; reflexivity.
Qed.

(** A resolved scope is never the empty string. *)
Lemma resolve_truthy q ff f :
  resolve_file_filter q ff = Some f -> truthy (Some f) = true.
Proof.
  unfold resolve_file_filter. destruct (truthy ff) eqn:E; cbn [negb].
  - intros H. now rewrite <- H.
  - unfold _extract_file_filter, file_indicators, first_indicated.
    repeat match goal with
           | |- context [if ?b then _ else _] => destruct b
           end; intros [= <-]; reflexivity.
Qed.

Lemma format_source_nonempty (docs : list Document) :
  docs <> [] -> map format_source docs <> [].
Proof. destruct docs; [congruence | discriminate]. Qed.

(** C2, as the code has it. When a scope is set, the context that fills
    the prompt is the text of every retrieved chunk (the eight nearest),
    joined by blank lines, whether or not the chunk matches the scope;
    the model is called on that prompt, and the scope filter is applied
    afterwards, to the list of sources only. *)
Theorem prompt_context_is_whole_retrieval
        (vs : string -> nat -> result (list Document))
        (model : string -> result string)
        (q : string) (ff : option string) (f : string)
        (docs : list Document) :
  resolve_file_filter q ff = Some f ->
  vs q 8 = Ok docs ->
  exists tpl,
    _select_template (init vs model) q = Ok tpl /\
    ask_question_try (init vs model) q (Some f) =
      (filled <- format tpl [("context",
                              join (nl ++ nl) (map page_content docs));
                             ("question", q)] ;;
       text <- model filled ;;
       kept <- filter_sources f docs ;;
       Ok (mkOutcome text
             (map format_source
                  (match kept with [] => docs | _ :: _ => kept end))
             q "PromptTemplate" (Some f))) /\
    (forall filled o,
        format tpl [("context", join (nl ++ nl) (map page_content docs));
                    ("question", q)] = Ok filled ->
        ask_question (init vs model) q ff = o ->
        template_used o <> "error" ->
        model filled = Ok (answer o)).
Proof.
  intros Hres Hvs.
  destruct (select_template_total vs model q) as [tpl Htpl].
  exists tpl. split; [exact Htpl|].
  pose proof (ask_question_try_scoped vs model q f docs tpl
                (resolve_truthy _ _ _ Hres) Hvs Htpl) as Htry.
  split; [exact Htry|].
  intros filled o Hfmt Ho Hok. unfold ask_question in Ho.
  rewrite Hres, Htry in Ho. unfold stuff_context in Ho.
  rewrite Hfmt in Ho. cbn [rbind] in Ho.
  destruct (model filled) as [text|e]; cbn [rbind] in Ho.
  - destruct (filter_sources f docs) as [kept|e]; cbn [rbind] in Ho;
      subst o; [reflexivity | now elim Hok].
  - subst o. now elim Hok.
Qed.

Lemma prompt_context_is_whole_retrieval_witness :
  exists tpl,
    _select_template (init two_chunk_store echo_llm) nike_question = Ok tpl /\
    ask_question_try (init two_chunk_store echo_llm) nike_question
                     (Some "nike") =
      (filled <- format tpl
                   [("context",
                     join (nl ++ nl)
                          (map page_content [nike_chunk; resume_chunk]));
                    ("question", nike_question)] ;;
       text <- echo_llm filled ;;
       kept <- filter_sources "nike" [nike_chunk; resume_chunk] ;;
       Ok (mkOutcome text
             (map format_source
                  (match kept with
                   | [] => [nike_chunk; resume_chunk]
                   | _ :: _ => kept
                   end))
             nike_question "PromptTemplate" (Some "nike"))) /\
    (forall filled o,
        format tpl
          [("context",
            join (nl ++ nl) (map page_content [nike_chunk; resume_chunk]));
           ("question", nike_question)] = Ok filled ->
        ask_question (init two_chunk_store echo_llm) nike_question None = o ->
        template_used o <> "error" ->
        echo_llm filled = Ok (answer o)).
Proof.
  apply (prompt_context_is_whole_retrieval
           two_chunk_store echo_llm nike_question None "nike"
           [nike_chunk; resume_chunk]); reflexivity.
Defined.

(** C2, as the specification states it, fails. The question names Nike,
    so the scope is "nike"; of the two retrieved chunks only the first
    matches it. The model here answers with the prompt it received, so
    the answer shows the prompt: it is the financial template filled with
    both chunks, not with the matching chunk alone, and the text of the
    chunk outside the scope occurs in it. *)
Lemma prompt_context_filtered_counterexample :
  let self := init two_chunk_store echo_llm in
  let o := ask_question self nike_question None in
  file_filter o = Some "nike" /\
  filter_sources "nike" [nike_chunk; resume_chunk] = Ok [nike_chunk] /\
  sources o = [format_source nike_chunk] /\
  format FINANCIAL_TEMPLATE
         [("context", stuff_context [nike_chunk; resume_chunk]);
          ("question", nike_question)] = Ok (answer o) /\
  format FINANCIAL_TEMPLATE
         [("context", stuff_context [nike_chunk]);
          ("question", nike_question)] <> Ok (answer o) /\
  occurs (page_content resume_chunk) (answer o).
Proof.
  cbv zeta. repeat split; try (vm_compute; reflexivity).
  - vm_compute. discriminate.
  - apply str_in_iff. vm_compute. reflexivity.
Qed.

(** C4. [ask_question] wraps its whole body in one try block whose
    handler returns a dictionary, so it returns an outcome for every
    question and every behaviour of the store and of the model. Whenever
    the body raises, and in particular when the retrieval, the filling of
    the prompt or the call of the model raises, the outcome is degraded:
    its answer is the non-empty message built from the error, its sources
    are empty and its template is "error". *)
Theorem ask_question_absorbs_failures
        (vs : string -> nat -> result (list Document))
        (model : string -> result string)
        (q : string) (ff : option string) :
  let self := init vs model in
  let scope := resolve_file_filter q ff in
  let k := if truthy scope then 8 else 6 in
  let o := ask_question self q ff in
  (forall e, ask_question_try self q scope = Raise e -> degraded o e) /\
  (forall e, vs q k = Raise e -> degraded o e) /\
  (forall docs tpl e,
      vs q k = Ok docs ->
      _select_template self q = Ok tpl ->
      format tpl [("context", stuff_context docs); ("question", q)]
        = Raise e ->
      degraded o e) /\
  (forall docs tpl filled e,
      vs q k = Ok docs ->
      _select_template self q = Ok tpl ->
      format tpl [("context", stuff_context docs); ("question", q)]
        = Ok filled ->
      model filled = Raise e ->
      degraded o e) /\
  (ask_question_try self q scope = Ok o \/
   exists e, ask_question_try self q scope = Raise e /\ degraded o e).
Proof.
  cbv zeta.
  assert (Hdeg : forall e,
             ask_question_try (init vs model) q (resolve_file_filter q ff)
               = Raise e ->
             degraded (ask_question (init vs model) q ff) e).
  { intros e He. unfold ask_question. rewrite He.
    unfold degraded, ask_question_except. cbn [answer sources template_used].
    repeat split; discriminate. }
  split; [exact Hdeg|].
  split; [|split; [|split]].
  - intros e He. apply Hdeg. unfold ask_question_try, qa_chain.
    destruct (select_template_total vs model q) as [tpl ->].
    cbn [rbind vectorstore init]. now rewrite He.
  - intros docs tpl e Hvs Htpl Hfmt. apply Hdeg.
    unfold ask_question_try, qa_chain. rewrite Htpl.
    cbn [rbind vectorstore init]. rewrite Hvs. cbn [rbind]. now rewrite Hfmt.
  - intros docs tpl filled e Hvs Htpl Hfmt Hllm. apply Hdeg.
    unfold ask_question_try, qa_chain. rewrite Htpl.
    cbn [rbind vectorstore llm init]. rewrite Hvs. cbn [rbind].
    rewrite Hfmt. cbn [rbind]. now rewrite Hllm.
  - unfold ask_question at 1.
    destruct (ask_question_try (init vs model) q (resolve_file_filter q ff))
      as [o|e] eqn:E.
    + now left.
    + right. exists e. split; [reflexivity|]. now apply Hdeg.
Qed.

Lemma ask_question_absorbs_failures_witness :
  degraded (ask_question (init two_chunk_store down_llm) nike_question None)
           (Exception "ConnectionError"
                      "Ollama call failed with status code 404") /\
  degraded (ask_question (init broken_store echo_llm) nike_question None)
           (Exception "InternalError" "no such table: collections").
Proof.
  split.
  - refine (proj1 (proj2 (proj2 (proj2
              (ask_question_absorbs_failures
                 two_chunk_store down_llm nike_question None))))
              [nike_chunk; resume_chunk] FINANCIAL_TEMPLATE _ _ _ _ _ _);
      vm_compute; reflexivity.
  - apply (proj1 (proj2 (ask_question_absorbs_failures
                           broken_store echo_llm nike_question None)));
      reflexivity.
Defined.

(** C6. With a scope set, the retrieved chunks are filtered to those
    whose source path contains the scope, both lower-cased; the sources
    of the outcome are built from the filtered chunks, or from all
    retrieved chunks when none is left, so a non-empty retrieval never
    gives an empty source list. *)
Theorem scope_filter_falls_back
        (vs : string -> nat -> result (list Document))
        (model : string -> result string)
        (q : string) (ff : option string) (f : string)
        (docs : list Document) (o : Outcome) :
  resolve_file_filter q ff = Some f ->
  vs q 8 = Ok docs ->
  ask_question_try (init vs model) q (Some f) = Ok o ->
  ask_question (init vs model) q ff = o /\
  sources o =
    map format_source
        (match filter (source_matches f) docs with
         | [] => docs
         | _ :: _ => filter (source_matches f) docs
         end) /\
  (forall d, In d (filter (source_matches f) docs) <->
             In d docs /\ in_scope f d) /\
  (docs <> [] -> sources o <> []).
Proof.
  intros Hres Hvs Htry.
  destruct (select_template_total vs model q) as [tpl Htpl].
  pose proof (ask_question_try_scoped vs model q f docs tpl
                (resolve_truthy _ _ _ Hres) Hvs Htpl) as Heq.
  rewrite Htry in Heq.
  destruct (format tpl _) as [filled|e]; cbn [rbind] in Heq; [|discriminate].
  destruct (model filled) as [text|e]; cbn [rbind] in Heq; [|discriminate].
  destruct (filter_sources f docs) as [kept|e] eqn:Ekept; cbn [rbind] in Heq;
    [|discriminate].
  apply filter_sources_ok in Ekept. subst kept.
  injection Heq as ->. cbn [sources].
  split; [unfold ask_question; now rewrite Hres, Htry|].
  split; [reflexivity|].
  split.
  - intros d. rewrite filter_In, source_matches_iff. reflexivity.
  - intros Hne. destruct (filter (source_matches f) docs) eqn:Ef.
    + now apply format_source_nonempty.
    + discriminate.
Qed.

Lemma scope_filter_falls_back_witness :
  let docs := [nike_chunk; resume_chunk] in
  let o := ask_question (init two_chunk_store echo_llm) nike_question None in
  ask_question (init two_chunk_store echo_llm) nike_question None = o /\
  sources o =
    map format_source
        (match filter (source_matches "nike") docs with
         | [] => docs
         | _ :: _ => filter (source_matches "nike") docs
         end) /\
  (forall d, In d (filter (source_matches "nike") docs) <->
             In d docs /\ in_scope "nike" d) /\
  (docs <> [] -> sources o <> []).
Proof.
  apply (scope_filter_falls_back
           two_chunk_store echo_llm nike_question None "nike"
           [nike_chunk; resume_chunk]); reflexivity.
Defined.

(** Both branches on the two-chunk store: a scope that matches one chunk
    keeps that chunk; a scope that matches none keeps both. *)
Example scoped_sources :
  sources (ask_question (init two_chunk_store echo_llm) nike_question None)
  = [format_source nike_chunk].
Proof. vm_compute. reflexivity. Qed.

Example fallback_sources :
  let o := ask_question (init two_chunk_store echo_llm)
                        "What does the research say?" None in
  file_filter o = Some "research" /\
  sources o = [format_source nike_chunk; format_source resume_chunk].
Proof. split; vm_compute; reflexivity. Qed.

End AnswerFacts.

(** ** The index lifecycle manager (embedding_manager.py) *)

Module ManagerFacts.

Import EmbeddingManager Examples PyFacts.
Local Open Scope io_scope.
Local Open Scope list_scope.

(** *** Running computations *)

Lemma bind_run {A B} (m : M A) (k : A -> M B) (w : World) :
  bind m k w =
  match m w with
  | (Ok a, w') => k a w'
  | (Raise e, w') => (Raise e, w')
  end.
Proof. reflexivity. Qed.

Lemma bind_ok {A B} (m : M A) (k : A -> M B) (w w' : World) (b : B) :
  bind m k w = (Ok b, w') ->
  exists a wm, m w = (Ok a, wm) /\ k a wm = (Ok b, w').
Proof.
  unfold bind. destruct (m w) as [[a|e] wm]; [|discriminate].
  intros H. now exists a, wm.
Qed.

(** *** What computations add to the world *)

Lemma builds_app (xs ys : list Call) : builds (xs ++ ys) = builds xs + builds ys.
Proof. unfold builds. now rewrite filter_app, length_app. Qed.

Lemma printed_app (line : string) (xs ys : list string) :
  printed line (xs ++ ys) = printed line xs + printed line ys.
Proof. apply count_occ_app. Qed.

Lemma grows_refl (w : World) : grows 0 w w.
Proof.
  split; try reflexivity.
  - exists []. now rewrite app_nil_r.
  - exists []. now rewrite app_nil_r.
Qed.

Lemma grows_trans (a b : nat) (w0 w1 w2 : World) :
  grows a w0 w1 -> grows b w1 w2 -> grows (a + b) w0 w2.
Proof.
  intros [R1 C1 (n1 & E1 & B1) (o1 & S1 & P1)]
         [R2 C2 (n2 & E2 & B2) (o2 & S2 & P2)].
  split.
  - congruence.
  - congruence.
  - exists (n1 ++ n2). rewrite E2, E1, app_assoc, builds_app. split; [auto | lia].
  - exists (o1 ++ o2). rewrite S2, S1, app_assoc, printed_app. split; [auto | lia].
Qed.

Lemma grows_mono (a b : nat) (w w' : World) :
  a <= b -> grows a w w' -> grows b w w'.
Proof.
  intros Hab [R C (n & E & B) S]. split; auto. exists n. split; [auto | lia].
Qed.

Lemma grows_line (s : string) (w : World) :
  s <> reset_line -> grows 0 w (with_line s w).
Proof.
  intros Hs. split; try reflexivity.
  - exists []. now rewrite app_nil_r.
  - exists [s]. split; [reflexivity|].
    unfold printed. simpl. destruct (string_dec s reset_line); congruence.
Qed.

Lemma grows_call (c : Call) (d : option (list Collection)) (w : World) :
  grows (builds [c]) w (with_dir d (with_call c w)).
Proof.
  split; try reflexivity.
  - exists [c]. split; [reflexivity | lia].
  - exists []. simpl. now rewrite app_nil_r.
Qed.

Lemma within_ret {A} (a : A) : within 0 (ret a).
Proof. intros w. apply grows_refl. Qed.

Lemma within_raise {A} (e : exn) : within 0 (@raise A e).
Proof. intros w. apply grows_refl. Qed.

Lemma within_print (s : string) : s <> reset_line -> within 0 (print s).
Proof. intros Hs w. now apply grows_line. Qed.

Lemma within_external {A} (c : Call) effect :
  within (builds [c]) (@external A c effect).
Proof.
  intros w. unfold external.
  destruct (raises w (length (calls w))).
  - apply (grows_call c (chroma_dir w) w).
  - destruct (effect (chroma_dir w)) as [r d]. apply grows_call.
Qed.

Lemma within_other_call {A} (c : Call) effect :
  is_build c = false -> within 0 (@external A c effect).
Proof.
  intros Hc w. eapply grows_mono; [|apply within_external].
  unfold builds. simpl. now rewrite Hc.
Qed.




Lemma within_bind {A B} (a b : nat) (m : M A) (k : A -> M B) :
  within a m -> (forall x, within b (k x)) -> within (a + b) (bind m k).
Proof.
  intros Hm Hk w. rewrite bind_run. specialize (Hm w).
  destruct (m w) as [[x|e] w1]; simpl in Hm.
  - eapply grows_trans; [exact Hm | apply Hk].
  - simpl. eapply grows_mono; [|exact Hm]. lia.
Qed.

Lemma within_try {A} (a b : nat) (body : M A) (handler : exn -> M A) :
  within a body -> (forall e, within b (handler e)) ->
  within (a + b) (try_except body handler).
Proof.
  intros Hm Hk w. unfold try_except. specialize (Hm w).
  destruct (body w) as [[x|e] w1]; simpl in Hm.
  - simpl. eapply grows_mono; [|exact Hm]. lia.
  - eapply grows_trans; [exact Hm | apply Hk].
Qed.

Ltac not_reset_line := unfold reset_line; discriminate.
Ltac other_call := apply within_other_call; reflexivity.

Lemma within_clear : within 0 _clear_chroma_db.
Proof.
  unfold _clear_chroma_db.
  apply (within_try 0 0).
  - apply (within_bind 0 0); [other_call|]. intros there.
    apply (within_bind 0 0).
    + destruct there; [|apply within_ret].
      apply (within_bind 0 0); [other_call|]. intros _.
      apply within_print. not_reset_line.
    + intros _. apply (within_bind 0 0); [other_call|]. intros _.
      apply (within_bind 0 0); intros; apply within_ret.
  - intros e. apply (within_bind 0 0); [|intros; apply within_ret].
    apply within_print. not_reset_line.
Qed.

Lemma within_client : within 0 _create_chroma_client.
Proof.
  unfold _create_chroma_client.
  apply (within_try 0 0).
  - apply (within_bind 0 0); [apply within_ret|]. intros _.
    apply (within_bind 0 0); [other_call|]. intros.
    apply within_ret.
  - intros e. apply (within_bind 0 0); [apply within_print; not_reset_line|].
    intros _. apply (within_bind 0 0); [apply within_clear|]. intros _.
    apply (within_bind 0 0); [apply within_ret|]. intros _.
    other_call.
Qed.





(** *** [create_embeddings] *)

(** Case analysis on the outcome of the next call of a method or of the
    build, once the monad is unfolded. *)
Ltac run_step :=
  cbv beta iota;
  match goal with
  | |- context [_clear_chroma_db ?w] =>
      destruct (_clear_chroma_db w) as [[?|?] ?]
  | |- context [_create_chroma_client ?w] =>
      destruct (_create_chroma_client w) as [[?|?] ?]
  | |- context [Chroma_from_documents ?docs ?cl ?n ?w] =>
      destruct (Chroma_from_documents docs cl n w) as [[?|?] ?]
  end.

(** The method on a non-empty list: one pass, and after a failure one
    more pass; [reset_and_build] is the code both blocks share. *)
Lemma create_embeddings_run (d : Document) (ds : list Document) (w : World) :
  create_embeddings (d :: ds) w =
  match reset_and_build (d :: ds) (announced (d :: ds) w) with
  | (Ok v, w1) =>
      (Ok (Some v),
       with_line ("Successfully created embeddings and stored in "
                  ++ Settings.CHROMA_DB_DIR)%string w1)
  | (Raise e1, w1) =>
      match reset_and_build (d :: ds) (reset_announced e1 w1) with
      | (Ok v, w2) =>
          (Ok (Some v),
           with_line "Successfully created embeddings after reset" w2)
      | (Raise e2, w2) =>
          (Raise e2,
           with_line ("Failed to create embeddings after reset: "
                      ++ exc_str e2)%string w2)
      end
  end.
Proof.
  cbv beta iota zeta
      delta [create_embeddings reset_and_build try_except bind print ret
             raise gc_collect time_time reset_line announced
             reset_announced].
  repeat run_step; reflexivity.
Qed.




(** That run in full: both builds raise, the second error reaches the
    caller, and the store is left empty. *)
Example provider_down_run :
  let final := create_embeddings [nike_chunk; resume_chunk]
                                 provider_down_world in
  fst final = Raise embedding_error /\
  chroma_dir (snd final) = Some [] /\
  calls (snd final) =
    [CallExists; CallRmtree; CallMkdir; CallPersistentClient; CallTime;
     CallFromDocuments "documents_1700000504";
     CallExists; CallRmtree; CallMkdir; CallPersistentClient; CallTime;
     CallFromDocuments "documents_1700000510"] /\
  stdout (snd final) =
    ["Creating embeddings for 2 documents...";
     "Cleared ChromaDB at data/chroma_db";
     "Error creating embeddings: embedding model is not available";
     "Attempting complete reset...";
     "Cleared ChromaDB at data/chroma_db";
     "Failed to create embeddings after reset: embedding model is not available"]%string.
Proof. cbv zeta. repeat split; vm_compute; reflexivity. Qed.

(** When the first pass succeeds there is no reset. *)
Lemma create_embeddings_first_pass (d : Document) (ds : list Document)
      (w w1 : World) (v : Chroma) :
  reset_and_build (d :: ds) (announced (d :: ds) w) = (Ok v, w1) ->
  fst (create_embeddings (d :: ds) w) = Ok (Some v) /\
  calls (snd (create_embeddings (d :: ds) w)) = calls w1.
Proof.
  intros H. rewrite create_embeddings_run, H. split; reflexivity.
Qed.

(** C1, as the code has it. For the empty list of chunks the method
    does not fail: it prints that there is nothing to process and returns
    none, and does nothing else. *)
Theorem create_embeddings_empty_returns_none (w : World) :
  create_embeddings [] w = (Ok None, with_line "No documents to process" w).
Proof. reflexivity. Qed.

(** C1, as the specification states it, fails: on a store with an
    existing generation the call with no chunks returns none, and no
    error is raised. *)
Lemma create_embeddings_empty_counterexample :
  fst (create_embeddings [] indexed_world) = Ok None /\
  ~ (exists e, fst (create_embeddings [] indexed_world) = Raise e).
Proof.
  split; [reflexivity|]. intros [e H]. discriminate H.
Qed.

(** C10. The call with no chunks leaves the index directory as it was
    and makes no call to the file system or to the store (the return
    comes before the clear), so every generation on disk keeps its
    items. *)
Theorem create_embeddings_empty_keeps_store (w : World) :
  let w' := snd (create_embeddings [] w) in
  chroma_dir w' = chroma_dir w /\
  calls w' = calls w /\
  (forall n, count_on_disk n w' = count_on_disk n w).
Proof. cbv zeta. repeat split. Qed.

(** By contrast, the call with chunks clears what was on disk. *)
Example create_embeddings_replaces_store :
  chroma_dir (snd (create_embeddings [resume_chunk] indexed_world))
  = Some [mkCollection "documents_1700000504" [resume_chunk]].
Proof. vm_compute. reflexivity. Qed.

(** *** [load_existing_vectorstore] *)

(** The method never raises. *)
Lemma load_existing_vectorstore_total (w : World) :
  exists r, fst (load_existing_vectorstore w) = Ok r.
Proof.
  unfold load_existing_vectorstore, try_except.
  match goal with
  | |- context [match ?body w with _ => _ end] =>
      destruct (body w) as [[r|e] w1]
  end; simpl; eauto.
Qed.

(** When the client cannot be created, or the collections cannot be
    enumerated, the method returns none. *)
Lemma load_existing_vectorstore_none_on_error (w : World) :
  (forall e w1,
      _create_chroma_client w = (Raise e, w1) ->
      fst (load_existing_vectorstore w) = Ok None) /\
  (forall cl w1 e w2,
      _create_chroma_client w = (Ok cl, w1) ->
      list_collections cl w1 = (Raise e, w2) ->
      fst (load_existing_vectorstore w) = Ok None) /\
  (forall cl w1 w2,
      _create_chroma_client w = (Ok cl, w1) ->
      list_collections cl w1 = (Ok [], w2) ->
      fst (load_existing_vectorstore w) = Ok None).
Proof.
  unfold load_existing_vectorstore, try_except.
  repeat split; intros;
    repeat (rewrite bind_run;
            match goal with
            | H : ?m = (_, _) |- context [?m] => rewrite H
            end; cbv beta iota);
    reflexivity.
Qed.

(** A handle that is returned names the first enumerated collection,
    whose item count was read; nothing is required of that count. *)
Lemma load_existing_vectorstore_first (w w' : World) (v : Chroma) :
  load_existing_vectorstore w = (Ok (Some v), w') ->
  exists cl w0 first rest,
    fst (list_collections cl w0) = Ok (first :: rest) /\
    collection_name v = name first /\
    exists count w2, fst (collection_count (name first) w2) = Ok count.
Proof.
  unfold load_existing_vectorstore, try_except.
  match goal with
  | |- context [match ?body w with _ => _ end] =>
      destruct (body w) as [[r|e] wb] eqn:Hbody
  end; [|discriminate].
  intros [= -> ->].
  apply bind_ok in Hbody as (cl & w0 & Hcl & Hbody).
  apply bind_ok in Hbody as (cols & w1 & Hcols & Hbody).
  destruct cols as [|first rest]; [discriminate|].
  apply bind_ok in Hbody as (vs & w2 & Hopen & Hbody).
  apply bind_ok in Hbody as (col & w3 & Hget & Hbody).
  apply bind_ok in Hbody as (count & w4 & Hcount & Hbody).
  exists cl, w0, first, rest. rewrite Hcols. split; [reflexivity|].
  assert (Hvs : collection_name vs = name first).
  { unfold Chroma_open, external in Hopen.
    destruct (raises w1 _); [discriminate|].
    destruct (chroma_dir w1); [|discriminate]. now injection Hopen as <- _. }
  assert (Hcol : col = name first).
  { unfold get_collection, external in Hget.
    destruct (raises w2 _); [discriminate|].
    destruct (chroma_dir w2); [|discriminate].
    destruct (existsb _ _); [|discriminate]. now injection Hget as <- _. }
  split.
  - unfold bind, print, ret in Hbody. now injection Hbody as <- _.
  - exists count, w3. rewrite <- Hcol, Hcount. reflexivity.
Qed.

(** With no collection on disk the method returns none. *)
Example load_existing_vectorstore_none :
  fst (load_existing_vectorstore
         (mkWorld (Some []) [] (fun _ => None) (fun _ => 0%Z) (fun _ => 0) []))
  = Ok None.
Proof. reflexivity. Qed.

(** C5 on a store whose only generation holds no item: the method reads
    the count, prints it, and returns the handle all the same. The count
    is never compared with zero. *)
Theorem load_existing_vectorstore_empty_generation :
  count_on_disk "documents_1700000000" empty_generation_world = Some 0 /\
  fst (load_existing_vectorstore empty_generation_world)
  = Ok (Some (mkChroma (mkClient Settings.CHROMA_DB_DIR)
                       "documents_1700000000")) /\
  stdout (snd (load_existing_vectorstore empty_generation_world))
  = ["Loaded existing vectorstore with 0 documents"%string].
Proof. repeat split; vm_compute; reflexivity. Qed.

End ManagerFacts.

(* ===================================================================== *)
(** * Further properties of the sources                                   *)
(* ===================================================================== *)

(** ** The manager on working and on failing providers *)

Module ManagerMore.

Import EmbeddingManager ManagerSpec ManagerFacts PyFacts Examples MoreExamples.
Local Open Scope io_scope.
Local Open Scope list_scope.

Lemma healthy_grows (nb : nat) (w w' : World) :
  grows nb w w' -> healthy w -> healthy w'.
Proof.
  intros [R _ (new & Hc & _) _] H n Hn. rewrite R. apply H.
  rewrite Hc, length_app in Hn. lia.
Qed.

(** The calls to come succeed. *)
Ltac use_healthy H :=
  rewrite ?H by (cbn [calls with_call with_dir with_line];
                 rewrite ?length_app; simpl; lia).

Lemma external_healthy {A} (c : Call) effect (w : World) :
  healthy w ->
  @external A c effect w =
  (fst (effect (chroma_dir w)),
   with_dir (snd (effect (chroma_dir w))) (with_call c w)).
Proof.
  intros H. unfold external. rewrite H by lia.
  now destruct (effect (chroma_dir w)).
Qed.

Lemma clear_healthy (w : World) :
  healthy w ->
  exists w', _clear_chroma_db w = (Ok true, w') /\ chroma_dir w' = Some [].
Proof.
  intros H.
  unfold _clear_chroma_db, try_except, bind, path_exists, shutil_rmtree,
    path_mkdir, gc_collect, print, ret, external.
  use_healthy H. destruct (chroma_dir w); cbn; use_healthy H; cbn;
    use_healthy H; cbn; eexists; split; reflexivity.
Qed.

Lemma client_healthy (w : World) :
  healthy w ->
  exists w',
    _create_chroma_client w = (Ok (mkClient Settings.CHROMA_DB_DIR), w') /\
    chroma_dir w' = Some (match chroma_dir w with
                          | Some cs => cs
                          | None => []
                          end).
Proof.
  intros H.
  unfold _create_chroma_client, try_except, bind, gc_collect, ret,
    PersistentClient, external.
  use_healthy H. cbn. eexists; split; reflexivity.
Qed.

Lemma add_to_present_head (pos : nat) (docs : list Document)
      (first : Collection) (rest : list Collection) :
  add_to pos (name first) docs (first :: rest)
  = mkCollection (name first) (items first ++ docs) :: rest.
Proof. unfold add_to. simpl. now rewrite String.eqb_refl. Qed.

Lemma add_to_nil (pos : nat) (n : string) (docs : list Document) :
  add_to pos n docs [] = [mkCollection n docs].
Proof. unfold add_to. simpl. now destruct pos. Qed.

(** One pass on working providers: the store ends with the new
    collection and nothing else. *)
Lemma reset_and_build_healthy (documents : list Document) (w : World) :
  healthy w ->
  exists n w',
    length (calls w) <= n /\
    reset_and_build documents w =
      (Ok (mkChroma (mkClient Settings.CHROMA_DB_DIR)
                    ("documents_" ++ str_of_Z (clock w n))%string), w') /\
    chroma_dir w' =
      Some [mkCollection ("documents_" ++ str_of_Z (clock w n))%string
                         documents] /\
    healthy w'.
Proof.
  intros H.
  destruct (clear_healthy w H) as (w1 & Hclear & Hdir1).
  pose proof (within_clear w) as G1. rewrite Hclear in G1. cbn [snd] in G1.
  pose proof (healthy_grows _ _ _ G1 H) as H1.
  destruct (client_healthy w1 H1) as (w2 & Hclient & Hdir2).
  pose proof (within_client w1) as G2. rewrite Hclient in G2. cbn [snd] in G2.
  pose proof (healthy_grows _ _ _ G2 H1) as H2.
  rewrite Hdir1 in Hdir2.
  destruct (grows_trans _ _ _ _ _ G1 G2) as [_ Hclock (new & Hcalls & _) _].
  exists (length (calls w2)).
  unfold reset_and_build. rewrite bind_run, Hclear. cbv beta iota.
  rewrite bind_run. unfold gc_collect at 1, ret at 1. cbv beta iota.
  rewrite bind_run, Hclient. cbv beta iota.
  rewrite bind_run. unfold time_time at 1. cbv beta iota.
  unfold Chroma_from_documents.
  rewrite external_healthy
    by (intros n Hn; apply H2; cbn in Hn; rewrite length_app in Hn; lia).
  cbn [chroma_dir with_call with_dir fst snd]. rewrite Hdir2.
  cbn [fst snd]. rewrite add_to_nil, Hclock.
  eexists. split; [rewrite Hcalls, length_app; lia|].
  split; [reflexivity|]. split; [reflexivity|].
  intros n Hn. cbn in *. apply H2. rewrite !length_app in Hn. lia.
Qed.

(** What a build leaves on disk. *)
Lemma extend_stored (n : string) (docs : list Document)
      (cs : list Collection) :
  existsb (fun c => String.eqb (name c) n) cs = true ->
  exists c older,
    In c (extend n docs cs) /\ name c = n /\ items c = older ++ docs.
Proof.
  induction cs as [|c0 cs IH]; simpl; [discriminate|].
  destruct (String.eqb (name c0) n); simpl.
  - intros _. exists (mkCollection n (items c0 ++ docs)), (items c0).
    repeat split. now left.
  - intros H. destruct (IH H) as (c & older & Hin & Hn & Hi).
    exists c, older. repeat split; auto.
Qed.

Lemma insert_at_in (pos : nat) (c : Collection) (cs : list Collection) :
  In c (insert_at pos c cs).
Proof.
  revert pos; induction cs as [|c0 cs IH]; intros [|pos]; simpl; auto.
Qed.

Lemma add_to_stored (pos : nat) (n : string) (docs : list Document)
      (cs : list Collection) :
  exists c older,
    In c (add_to pos n docs cs) /\ name c = n /\ items c = older ++ docs.
Proof.
  unfold add_to.
  destruct (existsb (fun c => String.eqb (name c) n) cs) eqn:E.
  - now apply extend_stored.
  - exists (mkCollection n docs), []. repeat split. apply insert_at_in.
Qed.

Lemma reset_and_build_stored (documents : list Document) (w w' : World)
      (v : Chroma) :
  reset_and_build documents w = (Ok v, w') ->
  stored (collection_name v) documents w'.
Proof.
  unfold reset_and_build. intros H.
  apply bind_ok in H as (b & w1 & _ & H).
  apply bind_ok in H as (u & w1' & _ & H).
  apply bind_ok in H as (cl & w2 & _ & H).
  apply bind_ok in H as (now & w3 & _ & H).
  unfold Chroma_from_documents, external in H.
  destruct (raises w3 _); [discriminate|].
  destruct (chroma_dir w3) as [cs|]; [|discriminate].
  injection H as <- <-. cbn [collection_name].
  destruct (add_to_stored (slot w3 (length (calls w3)))
                          ("documents_" ++ str_of_Z now)%string documents cs)
    as (c & older & Hin & Hn & Hi).
  eexists _, c, older. split; [reflexivity|]. repeat split; auto.
Qed.

(** X1. Clearing the store never raises. When it reports success the
    directory exists and holds no collection; when it reports failure
    the last line printed is the error it caught. *)
Theorem clear_chroma_db_outcomes (w : World) :
  match _clear_chroma_db w with
  | (Ok true, w') => chroma_dir w' = Some []
  | (Ok false, w') =>
      exists e out,
        stdout w' =
        stdout w ++ out ++ [("Error clearing ChromaDB: " ++ exc_str e)%string]
  | (Raise _, _) => False
  end.
Proof.
  unfold _clear_chroma_db, try_except, bind, path_exists, shutil_rmtree,
    path_mkdir, gc_collect, print, ret, external.
  destruct (raises w (length (calls w))); cbn.
  { eexists _, []. reflexivity. }
  destruct (chroma_dir w); cbn.
  - destruct (raises w (length (calls w ++ [CallExists]))); cbn.
    { eexists _, []. reflexivity. }
    destruct (raises w _); cbn; [|reflexivity].
    eexists _, [_]. rewrite <- app_assoc. reflexivity.
  - destruct (raises w (length (calls w ++ [CallExists]))); cbn;
      [|reflexivity].
    eexists _, []. reflexivity.
Qed.

Ltac unfold_client :=
  unfold _create_chroma_client, _clear_chroma_db, try_except, bind,
    path_exists, shutil_rmtree, path_mkdir, PersistentClient, gc_collect,
    print, ret, external.

(** Case analysis on the calls the fallback makes after the first. *)
Ltac later_calls w :=
  repeat match goal with
         | |- context [raises w (length (calls w ++ ?l))] =>
             destruct (raises w (length (calls w ++ l))) eqn:?; cbn;
             rewrite <- ?app_assoc; cbn
         | |- context [chroma_dir w] => destruct (chroma_dir w); cbn;
                                         rewrite <- ?app_assoc; cbn
         end.

(** The calls of [_create_chroma_client]: one try, or a try, a clear
    and a second try. *)
Lemma create_chroma_client_calls (w : World) :
  exists new,
    calls (snd (_create_chroma_client w)) = calls w ++ new /\
    client_calls new <= 2 /\
    (raises w (length (calls w)) = None -> new = [CallPersistentClient]) /\
    (forall e, raises w (length (calls w)) = Some e ->
               (exists between,
                   new = CallPersistentClient :: CallExists :: between
                         ++ [CallPersistentClient]) /\
               client_calls new = 2).
Proof.
  unfold_client.
  destruct (raises w (length (calls w))) as [e0|] eqn:E0; cbn.
  2:{ exists [CallPersistentClient]. repeat split; try discriminate.
      cbn. lia. }
  rewrite <- ?app_assoc; cbn. later_calls w;
    (eexists; split; [reflexivity|]; split; [cbn; lia|];
     split; [discriminate|]; intros ? _; split; [|reflexivity]).
  all: first [ now exists [] | now exists [CallRmtree]
             | now exists [CallRmtree; CallMkdir] | now exists [CallMkdir] ].
Qed.

Lemma create_chroma_client_first_try (w : World) :
  raises w (length (calls w)) = None ->
  fst (_create_chroma_client w) = Ok (mkClient Settings.CHROMA_DB_DIR) /\
  chroma_dir (snd (_create_chroma_client w))
  = Some (match chroma_dir w with Some cs => cs | None => [] end).
Proof. intros E0. unfold_client. rewrite E0. cbn. now split. Qed.

Lemma create_chroma_client_fallback (e : exn) (w : World) :
  fails_once e w ->
  fst (_create_chroma_client w) = Ok (mkClient Settings.CHROMA_DB_DIR) /\
  chroma_dir (snd (_create_chroma_client w)) = Some [].
Proof.
  intros [H0 H1].
  assert (Hlater : forall l, l <> [] ->
                             raises w (length (calls w ++ l)) = None).
  { intros l Hl. apply H1. rewrite length_app.
    destruct l; [congruence | simpl; lia]. }
  unfold_client. rewrite H0. cbn. rewrite <- ?app_assoc; cbn.
  rewrite (Hlater [CallPersistentClient]) by discriminate. cbn.
  destruct (chroma_dir w); cbn; rewrite <- ?app_assoc; cbn;
    repeat (rewrite Hlater by discriminate; cbn; rewrite <- ?app_assoc; cbn);
    now split.
Qed.

Lemma create_chroma_client_raise (w : World) (e2 : exn) :
  fst (_create_chroma_client w) = Raise e2 ->
  (exists e, raises w (length (calls w)) = Some e) /\
  raises w (length (calls (snd (_create_chroma_client w))) - 1) = Some e2.
Proof.
  unfold_client.
  destruct (raises w (length (calls w))) as [e0|] eqn:E0; cbn;
    [|discriminate].
  rewrite <- ?app_assoc; cbn. later_calls w; try discriminate;
    intros [= <-]; (split; [eauto|]);
    match goal with
    | H : raises w (length (calls w ++ ?l)) = Some ?e |- raises w ?n = Some ?e =>
        rewrite <- H; f_equal; rewrite !length_app; simpl; lia
    end.
Qed.

Lemma create_chroma_client_ok (w : World) (cl : Client) :
  fst (_create_chroma_client w) = Ok cl ->
  path cl = Settings.CHROMA_DB_DIR /\
  chroma_dir (snd (_create_chroma_client w)) <> None.
Proof.
  unfold_client.
  destruct (raises w (length (calls w))) as [e0|] eqn:E0; cbn.
  2:{ intros [= <-]. split; [reflexivity | discriminate]. }
  rewrite <- ?app_assoc; cbn. later_calls w; try discriminate;
    intros [= <-]; split; try reflexivity; discriminate.
Qed.

(** X2. Creating the client tries [PersistentClient] at most twice.
    When the first try goes through it is the only call, and what was on
    disk is untouched. When the first try raises, the store is cleared
    (the calls of [_clear_chroma_db] come between the two tries, and when
    they and the second try go through the directory is left empty) and
    a second try is made. An error reaches the caller only when both
    tries raised, and it is the error of the second. A client that is
    returned has the index directory behind it. *)
Theorem create_chroma_client_outcomes (w : World) :
  let run := _create_chroma_client w in
  (exists new,
      calls (snd run) = calls w ++ new /\
      client_calls new <= 2 /\
      (raises w (length (calls w)) = None -> new = [CallPersistentClient]) /\
      (forall e, raises w (length (calls w)) = Some e ->
                 (exists between,
                     new = CallPersistentClient :: CallExists :: between
                           ++ [CallPersistentClient]) /\
                 client_calls new = 2)) /\
  (raises w (length (calls w)) = None ->
   fst run = Ok (mkClient Settings.CHROMA_DB_DIR) /\
   chroma_dir (snd run)
   = Some (match chroma_dir w with Some cs => cs | None => [] end)) /\
  (forall e, fails_once e w ->
             fst run = Ok (mkClient Settings.CHROMA_DB_DIR) /\
             chroma_dir (snd run) = Some []) /\
  (forall e2, fst run = Raise e2 ->
              (exists e, raises w (length (calls w)) = Some e) /\
              raises w (length (calls (snd run)) - 1) = Some e2) /\
  (forall cl, fst run = Ok cl ->
              path cl = Settings.CHROMA_DB_DIR /\
              chroma_dir (snd run) <> None).
Proof.
  cbv zeta.
  split; [apply create_chroma_client_calls|].
  split; [apply create_chroma_client_first_try|].
  split; [intros e; apply create_chroma_client_fallback|].
  split; [intros e2; apply create_chroma_client_raise|].
  intros cl; apply create_chroma_client_ok.
Qed.

Lemma create_chroma_client_outcomes_witness :
  fst (_create_chroma_client first_call_fails_world)
  = Ok (mkClient Settings.CHROMA_DB_DIR) /\
  chroma_dir (snd (_create_chroma_client first_call_fails_world)) = Some [].
Proof.
  apply (proj1 (proj2 (proj2 (create_chroma_client_outcomes
                                first_call_fails_world)))
               locked_error).
  split; [reflexivity|].
  intros n Hn. destruct n; [inversion Hn | reflexivity].
Defined.

(** X3. For a non-empty list the method returns a handle or raises; it
    returns none exactly when the list of chunks is empty. *)
Theorem create_embeddings_none_iff_empty (documents : list Document)
        (w : World) :
  fst (create_embeddings documents w) = Ok None <-> documents = [].
Proof.
  destruct documents as [|d ds].
  - split; reflexivity.
  - rewrite create_embeddings_run. split; [|discriminate].
    destruct (reset_and_build (d :: ds) (announced (d :: ds) w))
      as [[v|e1] w1]; [discriminate|].
    destruct (reset_and_build (d :: ds) (reset_announced e1 w1))
      as [[v|e2] w2]; discriminate.
Qed.

Lemma create_embeddings_stores_documents_aux
      (documents : list Document) (w w' : World) (v : Chroma) :
  create_embeddings documents w = (Ok (Some v), w') ->
  stored (collection_name v) documents w'.
Proof.
  destruct documents as [|d ds]; [discriminate|].
  rewrite create_embeddings_run.
  destruct (reset_and_build (d :: ds) (announced (d :: ds) w))
    as [[v1|e1] w1] eqn:E1.
  - intros [= <- <-]. apply reset_and_build_stored in E1.
    destruct E1 as (cs & c & older & H). now exists cs, c, older.
  - destruct (reset_and_build (d :: ds) (reset_announced e1 w1))
      as [[v2|e2] w2] eqn:E2; [|discriminate].
    intros [= <- <-]. apply reset_and_build_stored in E2.
    destruct E2 as (cs & c & older & H). now exists cs, c, older.
Qed.

(** X4. Whatever the providers do, a handle that is returned names a
    collection that is on disk, and the items of that collection end
    with the chunks that were passed, in their order. *)
Theorem create_embeddings_stores_documents
        (documents : list Document) (w w' : World) (v : Chroma) :
  create_embeddings documents w = (Ok (Some v), w') ->
  stored (collection_name v) documents w'.
Proof. apply create_embeddings_stores_documents_aux. Qed.

Lemma create_embeddings_stores_documents_witness :
  stored "documents_1700000504" [resume_chunk]
         (snd (create_embeddings [resume_chunk] indexed_world)).
Proof.
  apply (create_embeddings_stores_documents
           [resume_chunk] indexed_world
           (snd (create_embeddings [resume_chunk] indexed_world))
           (mkChroma (mkClient Settings.CHROMA_DB_DIR)
                     "documents_1700000504")).
  vm_compute. reflexivity.
Defined.

Lemma create_embeddings_healthy (d : Document) (ds : list Document)
      (w : World) :
  healthy w ->
  exists n w',
    length (calls w) <= n /\
    create_embeddings (d :: ds) w =
      (Ok (Some (mkChroma (mkClient Settings.CHROMA_DB_DIR)
                          ("documents_" ++ str_of_Z (clock w n))%string)),
       w') /\
    chroma_dir w' =
      Some [mkCollection ("documents_" ++ str_of_Z (clock w n))%string
                         (d :: ds)] /\
    healthy w'.
Proof.
  intros H.
  assert (H0 : healthy (announced (d :: ds) w)) by (intros n Hn; apply H, Hn).
  destruct (reset_and_build_healthy (d :: ds) _ H0)
    as (n & w1 & Hn & Hrun & Hdir & H1).
  exists n. rewrite create_embeddings_run, Hrun.
  eexists. split; [exact Hn|]. split; [reflexivity|].
  split; [exact Hdir|]. intros m Hm. apply H1, Hm.
Qed.

(** X5. On working providers a rebuild is destructive and complete: for
    a non-empty list of chunks it returns a handle named after the clock,
    and afterwards the store holds that one collection, with exactly the
    chunks passed, whatever it held before. *)
Theorem create_embeddings_replaces_generations
        (d : Document) (ds : list Document) (w : World) :
  healthy w ->
  exists n,
    length (calls w) <= n /\
    fst (create_embeddings (d :: ds) w) =
      Ok (Some (mkChroma (mkClient Settings.CHROMA_DB_DIR)
                         ("documents_" ++ str_of_Z (clock w n))%string)) /\
    chroma_dir (snd (create_embeddings (d :: ds) w)) =
      Some [mkCollection ("documents_" ++ str_of_Z (clock w n))%string
                         (d :: ds)].
Proof.
  intros H.
  destruct (create_embeddings_healthy d ds w H)
    as (n & w' & Hn & Hrun & Hdir & _).
  exists n. rewrite Hrun. auto.
Qed.

Lemma create_embeddings_replaces_generations_witness :
  exists n,
    length (calls indexed_world) <= n /\
    fst (create_embeddings [resume_chunk] indexed_world) =
      Ok (Some (mkChroma (mkClient Settings.CHROMA_DB_DIR)
                         ("documents_"
                          ++ str_of_Z (clock indexed_world n))%string)) /\
    chroma_dir (snd (create_embeddings [resume_chunk] indexed_world)) =
      Some [mkCollection ("documents_"
                          ++ str_of_Z (clock indexed_world n))%string
                         [resume_chunk]].
Proof.
  apply (create_embeddings_replaces_generations resume_chunk [] indexed_world).
  intros n _. reflexivity.
Defined.

(** Loading on working providers: the first collection is opened and the
    store is left as it was. *)
Lemma load_healthy (w : World) (first : Collection) (rest : list Collection) :
  healthy w ->
  chroma_dir w = Some (first :: rest) ->
  exists w',
    load_existing_vectorstore w =
      (Ok (Some (mkChroma (mkClient Settings.CHROMA_DB_DIR) (name first))),
       w') /\
    chroma_dir w' = Some (first :: rest).
Proof.
  intros H Hdir.
  unfold load_existing_vectorstore, _create_chroma_client, try_except, bind,
    PersistentClient, list_collections, Chroma_open, get_collection,
    collection_count, gc_collect, print, ret, external.
  use_healthy H. cbn -[add_to]. rewrite Hdir. use_healthy H. cbn -[add_to].
  use_healthy H. cbn -[add_to]. rewrite add_to_present_head.
  cbn. rewrite String.eqb_refl. use_healthy H. cbn. rewrite String.eqb_refl.
  cbn. use_healthy H. cbn. rewrite ?String.eqb_refl. cbn.
  eexists. split; [reflexivity|]. cbn.
  destruct first as [n its]. cbn. now rewrite app_nil_r.
Qed.

(** X6. On working providers, loading a store that holds collections
    returns a handle on the first one enumerated and changes nothing on
    disk. *)
Theorem load_existing_vectorstore_reads_first
        (w : World) (first : Collection) (rest : list Collection) :
  healthy w ->
  chroma_dir w = Some (first :: rest) ->
  fst (load_existing_vectorstore w) =
    Ok (Some (mkChroma (mkClient Settings.CHROMA_DB_DIR) (name first))) /\
  chroma_dir (snd (load_existing_vectorstore w)) = chroma_dir w.
Proof.
  intros H Hdir. destruct (load_healthy w first rest H Hdir) as (w' & -> & Hd).
  cbn [fst snd]. now rewrite Hd, Hdir.
Qed.

Lemma load_existing_vectorstore_reads_first_witness :
  fst (load_existing_vectorstore indexed_world) =
    Ok (Some (mkChroma (mkClient Settings.CHROMA_DB_DIR)
                       "documents_1700000000")) /\
  chroma_dir (snd (load_existing_vectorstore indexed_world)) =
    chroma_dir indexed_world.
Proof.
  apply (load_existing_vectorstore_reads_first
           indexed_world
           (mkCollection "documents_1700000000" [nike_chunk; resume_chunk])
           []).
  - intros n _. reflexivity.
  - reflexivity.
Defined.

(** X7. On working providers a rebuild followed by a load gives back the
    handle the rebuild returned, and the collection it names holds as
    many items as chunks were passed. *)
Theorem rebuild_then_load (d : Document) (ds : list Document) (w : World) :
  healthy w ->
  exists v,
    fst (create_embeddings (d :: ds) w) = Ok (Some v) /\
    fst (load_existing_vectorstore (snd (create_embeddings (d :: ds) w)))
      = Ok (Some v) /\
    count_on_disk
      (collection_name v)
      (snd (load_existing_vectorstore (snd (create_embeddings (d :: ds) w))))
      = Some (length (d :: ds)).
Proof.
  intros H.
  destruct (create_embeddings_healthy d ds w H)
    as (n & w1 & _ & Hrun & Hdir & H1).
  rewrite Hrun. cbn [fst snd].
  destruct (load_healthy w1 _ [] H1 Hdir) as (w2 & Hload & Hdir2).
  rewrite Hload. cbn [fst snd name].
  eexists. split; [reflexivity|]. split; [reflexivity|].
  unfold count_on_disk. rewrite Hdir2. cbn [find name collection_name].
  now rewrite String.eqb_refl.
Qed.

Lemma rebuild_then_load_witness :
  exists v,
    fst (create_embeddings [nike_chunk; resume_chunk] empty_generation_world)
      = Ok (Some v) /\
    fst (load_existing_vectorstore
           (snd (create_embeddings [nike_chunk; resume_chunk]
                                   empty_generation_world)))
      = Ok (Some v) /\
    count_on_disk
      (collection_name v)
      (snd (load_existing_vectorstore
              (snd (create_embeddings [nike_chunk; resume_chunk]
                                      empty_generation_world))))
      = Some 2.
Proof.
  apply (rebuild_then_load nike_chunk [resume_chunk] empty_generation_world).
  intros n _. reflexivity.
Defined.

(** X8. Loading never raises. A handle that is returned names a
    collection that is on disk, and the last line printed states the
    number of items that collection holds. *)
Theorem load_existing_vectorstore_outcomes (w : World) :
  match load_existing_vectorstore w with
  | (Ok (Some v), w') =>
      exists count out,
        count_on_disk (collection_name v) w' = Some count /\
        stdout w' =
        out ++ [("Loaded existing vectorstore with " ++ str_of_nat count
                 ++ " documents")%string]
  | (Ok None, _) => True
  | (Raise _, _) => False
  end.
Proof.
  destruct (load_existing_vectorstore_total w) as [r Hr].
  destruct (load_existing_vectorstore w) as [[[v|]|e] w'] eqn:E;
    cbn [fst] in Hr; try discriminate; [|exact I].
  revert E. unfold load_existing_vectorstore, try_except.
  match goal with
  | |- context [match ?body w with _ => _ end] =>
      destruct (body w) as [[r0|e] wb] eqn:Hbody
  end; [|discriminate].
  intros [= -> ->].
  apply bind_ok in Hbody as (cl & w0 & _ & Hbody).
  apply bind_ok in Hbody as (cols & w1 & _ & Hbody).
  destruct cols as [|first rest]; [discriminate|].
  apply bind_ok in Hbody as (vs & w2 & Hopen & Hbody).
  apply bind_ok in Hbody as (col & w3 & Hget & Hbody).
  apply bind_ok in Hbody as (count & w4 & Hcount & Hbody).
  assert (Hvs : collection_name vs = name first).
  { unfold Chroma_open, external in Hopen.
    destruct (raises w1 _); [discriminate|].
    destruct (chroma_dir w1); [|discriminate]. now injection Hopen as <- _. }
  assert (Hcol : col = name first).
  { unfold get_collection, external in Hget.
    destruct (raises w2 _); [discriminate|].
    destruct (chroma_dir w2); [|discriminate].
    destruct (existsb _ _); [|discriminate]. now injection Hget as <- _. }
  unfold bind, print, ret in Hbody. injection Hbody as <- <-.
  exists count, (stdout w4). split; [|reflexivity].
  unfold collection_count, external in Hcount.
  destruct (raises w3 _); [discriminate|].
  destruct (chroma_dir w3) as [cs|] eqn:Ed; [|discriminate].
  destruct (find (fun c => String.eqb (name c) col) cs) as [c|] eqn:Ef;
    [|discriminate].
  injection Hcount as <- <-.
  unfold count_on_disk. cbn [chroma_dir with_line with_dir with_call].
  rewrite Hvs, <- Hcol, Ef. reflexivity.
Qed.

(** X9. Loading can destroy the index: when the first attempt to create
    the client raises and every later call goes through, the fallback
    clears the directory, so the method returns none and the store is
    left empty, whatever it held. *)
Theorem load_existing_vectorstore_clears_on_client_error
        (e : exn) (w : World) :
  fails_once e w ->
  fst (load_existing_vectorstore w) = Ok None /\
  chroma_dir (snd (load_existing_vectorstore w)) = Some [].
Proof.
  intros [H0 H1].
  assert (Hlater : forall cs, cs <> [] ->
                              raises w (length (calls w ++ cs)) = None).
  { intros cs Hcs. apply H1. rewrite length_app.
    destruct cs; [congruence | simpl; lia]. }
  unfold load_existing_vectorstore, _create_chroma_client, _clear_chroma_db,
    try_except, bind, path_exists, shutil_rmtree, path_mkdir,
    PersistentClient, list_collections, gc_collect, print, ret, external.
  rewrite H0. cbn.
  rewrite (Hlater [CallPersistentClient]) by discriminate.
  destruct (chroma_dir w); cbn; rewrite <- ?app_assoc; cbn;
    repeat (rewrite Hlater by discriminate; cbn; rewrite <- ?app_assoc; cbn);
    split; reflexivity.
Qed.

Lemma load_existing_vectorstore_clears_on_client_error_witness :
  fst (load_existing_vectorstore first_call_fails_world) = Ok None /\
  chroma_dir (snd (load_existing_vectorstore first_call_fails_world))
  = Some [].
Proof.
  apply (load_existing_vectorstore_clears_on_client_error
           locked_error first_call_fails_world).
  split; [reflexivity|].
  intros n Hn. destruct n; [inversion Hn | reflexivity].
Defined.

(** X10. [clear_chroma_db] of app.py absorbs an error of the removal and
    reports it as false; it raises only when the test for the directory
    itself raises. When it returns true the directory is absent: unlike
    the manager's own clear it does not create the directory again. *)
Theorem app_clear_chroma_db_outcomes (w : World) :
  match App.clear_chroma_db w with
  | (Ok true, w') => chroma_dir w' = None
  | (Ok false, w') =>
      exists e,
        stdout w' =
        stdout w ++ [("Error clearing embeddings: " ++ exc_str e)%string]
  | (Raise e, w') =>
      raises w (length (calls w)) = Some e /\
      calls w' = calls w ++ [CallExists]
  end.
Proof.
  unfold App.clear_chroma_db, App.st_success, App.st_error, try_except, bind,
    path_exists, shutil_rmtree, print, ret, external.
  destruct (raises w (length (calls w))) eqn:E0; cbn; [now split|].
  destruct (chroma_dir w) eqn:Ed; cbn; [|reflexivity].
  destruct (raises w (length (calls w ++ [CallExists]))); cbn;
    [|reflexivity].
  eexists. reflexivity.
Qed.

(** A rebuild whose clear fails at the removal of the directory. *)
Lemma create_embeddings_uncleared (d : Document) (ds : list Document)
      (w : World) (e : exn) (cs : list Collection) :
  only_second_call_fails e w ->
  chroma_dir w = Some cs ->
  exists w',
    create_embeddings (d :: ds) w =
      (Ok (Some (mkChroma
                   (mkClient Settings.CHROMA_DB_DIR)
                   ("documents_"
                    ++ str_of_Z (clock w (length (calls w) + 3)))%string)),
       w') /\
    chroma_dir w' =
      Some (add_to (slot w (length (calls w) + 4))
                   ("documents_"
                    ++ str_of_Z (clock w (length (calls w) + 3)))%string
                   (d :: ds) cs) /\
    healthy w'.
Proof.
  intros [H1 H2] Hdir.
  assert (Hexists : raises w (length (calls w)) = None) by (apply H2; lia).
  assert (Hrm : raises w (length (calls w ++ [CallExists])) = Some e)
    by (rewrite length_app; exact H1).
  assert (Hlater : forall l, 2 <= length l ->
                             raises w (length (calls w ++ l)) = None).
  { intros l Hl. apply H2; rewrite length_app; lia. }
  assert (Htime : length (calls w ++ [CallExists; CallRmtree;
                                     CallPersistentClient])
                  = length (calls w) + 3)
    by (rewrite length_app; reflexivity).
  assert (Hbuild : length (calls w ++ [CallExists; CallRmtree;
                                      CallPersistentClient; CallTime])
                   = length (calls w) + 4)
    by (rewrite length_app; reflexivity).
  unfold create_embeddings, _clear_chroma_db, _create_chroma_client,
    Chroma_from_documents, try_except, bind, path_exists, shutil_rmtree,
    path_mkdir, PersistentClient, gc_collect, time_time, print, ret, raise,
    external.
  cbn -[add_to]. rewrite Hexists. cbn -[add_to]. rewrite Hdir. cbn -[add_to].
  rewrite Hrm. cbn -[add_to].
  rewrite <- !app_assoc. cbn -[add_to].
  rewrite (Hlater [CallExists; CallRmtree]) by (simpl; lia). cbn -[add_to].
  rewrite <- !app_assoc. cbn -[add_to].
  rewrite (Hlater [CallExists; CallRmtree; CallPersistentClient; CallTime])
    by (simpl; lia).
  cbn -[add_to]. rewrite Htime, Hbuild.
  eexists. split; [reflexivity|]. split; [reflexivity|].
  intros n Hn. cbn in Hn. rewrite <- !app_assoc in Hn. cbn in Hn.
  rewrite length_app in Hn. cbn in Hn. cbn. apply H2; lia.
Qed.

(** Adding to a collection leaves the collections of other names. *)
Lemma extend_keeps (n : string) (docs : list Document) (c : Collection)
      (cs : list Collection) :
  In c cs -> name c <> n -> In c (extend n docs cs).
Proof.
  intros Hin Hn. induction cs as [|c0 cs IH]; [contradiction|]. simpl.
  destruct (String.eqb (name c0) n) eqn:E.
  - destruct Hin as [->|Hin]; [|now right].
    apply String.eqb_eq in E. contradiction.
  - destruct Hin as [->|Hin]; [now left | right; auto].
Qed.

Lemma insert_at_keeps (pos : nat) (x c : Collection) (cs : list Collection) :
  In c cs -> In c (insert_at pos x cs).
Proof.
  revert pos; induction cs as [|c0 cs IH]; intros pos Hin; [contradiction|].
  destruct pos as [|pos]; simpl.
  - now right.
  - destruct Hin as [->|Hin]; [now left | right; auto].
Qed.

Lemma add_to_keeps (pos : nat) (n : string) (docs : list Document)
      (c : Collection) (cs : list Collection) :
  In c cs -> name c <> n -> In c (add_to pos n docs cs).
Proof.
  intros Hin Hn. unfold add_to.
  destruct (existsb _ cs); [now apply extend_keeps | now apply insert_at_keeps].
Qed.

(** Which collection comes first after adding to a store that is not
    empty. *)
Lemma add_to_head_old (pos : nat) (n : string) (docs : list Document)
      (c0 : Collection) (rest : list Collection) :
  0 < pos ->
  exists first rest',
    add_to pos n docs (c0 :: rest) = first :: rest' /\ name first = name c0.
Proof.
  intros Hpos. unfold add_to.
  destruct (existsb _ (c0 :: rest)).
  - simpl. destruct (String.eqb (name c0) n) eqn:E.
    + apply String.eqb_eq in E. eexists _, _. split; [reflexivity|].
      now rewrite E.
    + eexists _, _. split; reflexivity.
  - destruct pos as [|pos]; [lia|]. simpl. eexists _, _. split; reflexivity.
Qed.

Lemma add_to_head_new (n : string) (docs : list Document)
      (cs : list Collection) :
  existsb (fun c => String.eqb (name c) n) cs = false ->
  add_to 0 n docs cs = mkCollection n docs :: cs.
Proof. intros H. unfold add_to. rewrite H. now destruct cs. Qed.

(** X22. The result of the clear is not looked at. When the removal of
    the index directory raises and leaves it in place, and every other
    call goes through, the rebuild still returns a handle: the new
    collection is stored beside the collections that were there, which
    stay as they were. Which collection a load that follows opens
    depends on the enumeration of the store: the first of the earlier
    collections unless the new one is enumerated first. *)
Theorem failed_clear_keeps_stale_generations
        (d : Document) (ds : list Document) (w : World) (e : exn)
        (c0 : Collection) (rest : list Collection) :
  only_second_call_fails e w ->
  chroma_dir w = Some (c0 :: rest) ->
  let built := ("documents_"
                ++ str_of_Z (clock w (length (calls w) + 3)))%string in
  let place := slot w (length (calls w) + 4) in
  let after := snd (create_embeddings (d :: ds) w) in
  fst (create_embeddings (d :: ds) w)
  = Ok (Some (mkChroma (mkClient Settings.CHROMA_DB_DIR) built)) /\
  stored built (d :: ds) after /\
  (forall c, In c (c0 :: rest) -> name c <> built ->
             exists cs, chroma_dir after = Some cs /\ In c cs) /\
  (0 < place ->
   fst (load_existing_vectorstore after)
   = Ok (Some (mkChroma (mkClient Settings.CHROMA_DB_DIR) (name c0)))) /\
  (place = 0 ->
   existsb (fun c => String.eqb (name c) built) (c0 :: rest) = false ->
   fst (load_existing_vectorstore after)
   = Ok (Some (mkChroma (mkClient Settings.CHROMA_DB_DIR) built))).
Proof.
  intros Hfail Hdir. cbv zeta.
  destruct (create_embeddings_uncleared d ds w e (c0 :: rest) Hfail Hdir)
    as (w' & Hrun & Hdir' & Hh).
  pose proof (create_embeddings_stores_documents_aux
                (d :: ds) w w' _ Hrun) as Hstored.
  rewrite Hrun. cbn [fst snd].
  split; [reflexivity|]. split; [exact Hstored|]. split; [|split].
  - intros c Hin Hn. eexists. split; [exact Hdir'|].
    now apply add_to_keeps.
  - intros Hpos.
    destruct (add_to_head_old _
                ("documents_"
                 ++ str_of_Z (clock w (length (calls w) + 3)))%string
                (d :: ds) c0 rest Hpos) as (first & rest' & Hadd & Hname).
    rewrite Hadd in Hdir'.
    destruct (load_healthy w' first rest' Hh Hdir') as (w2 & -> & _).
    cbn [fst]. now rewrite Hname.
  - intros Hpos Hnew. rewrite Hpos, (add_to_head_new _ _ _ Hnew) in Hdir'.
    destruct (load_healthy w' _ _ Hh Hdir') as (w2 & -> & _).
    reflexivity.
Qed.

Lemma failed_clear_keeps_stale_generations_witness :
  let built := ("documents_"
                ++ str_of_Z (clock removal_fails_world
                                   (length (calls removal_fails_world) + 3)))%string in
  let place := slot removal_fails_world
                    (length (calls removal_fails_world) + 4) in
  let after := snd (create_embeddings [resume_chunk] removal_fails_world) in
  fst (create_embeddings [resume_chunk] removal_fails_world)
  = Ok (Some (mkChroma (mkClient Settings.CHROMA_DB_DIR) built)) /\
  stored built [resume_chunk] after /\
  (forall c,
      In c [mkCollection "documents_1700000000" [nike_chunk; resume_chunk]] ->
      name c <> built ->
      exists cs, chroma_dir after = Some cs /\ In c cs) /\
  (0 < place ->
   fst (load_existing_vectorstore after)
   = Ok (Some (mkChroma (mkClient Settings.CHROMA_DB_DIR)
                        "documents_1700000000"))) /\
  (place = 0 ->
   existsb (fun c => String.eqb (name c) built)
           [mkCollection "documents_1700000000" [nike_chunk; resume_chunk]]
   = false ->
   fst (load_existing_vectorstore after)
   = Ok (Some (mkChroma (mkClient Settings.CHROMA_DB_DIR) built))).
Proof.
  apply (failed_clear_keeps_stale_generations
           resume_chunk [] removal_fails_world locked_error
           (mkCollection "documents_1700000000" [nike_chunk; resume_chunk])
           []).
  - split; [reflexivity|].
    intros n _ Hn. destruct n as [|[|n]]; try reflexivity. now elim Hn.
  - reflexivity.
Defined.

(** That run, with the new collection enumerated last and enumerated
    first. *)
Example removal_fails_run :
  chroma_dir (snd (create_embeddings [resume_chunk] removal_fails_world))
  = Some [mkCollection "documents_1700000000" [nike_chunk; resume_chunk];
          mkCollection "documents_1700000503" [resume_chunk]] /\
  chroma_dir (snd (create_embeddings [resume_chunk]
                                     removal_fails_new_first_world))
  = Some [mkCollection "documents_1700000503" [resume_chunk];
          mkCollection "documents_1700000000" [nike_chunk; resume_chunk]].
Proof. split; vm_compute; reflexivity. Qed.

End ManagerMore.

(** ** The answer assembler, the router and the processor *)

Module AnswerMore.

Import PromptTemplates RAGEngine DocumentProcessor PyFacts RouterFacts
       ChunkerFacts AnswerFacts Examples MoreExamples.
Local Open Scope py_scope.

(** *** Strings *)

Lemma length_append (a b : string) :
  String.length (a ++ b) = String.length a + String.length b.
Proof. induction a as [|c a IH]; simpl; auto. Qed.

Lemma length_take (n : nat) (s : string) :
  String.length (take n s) = Nat.min n (String.length s).
Proof.
  unfold take. revert n; induction s as [|c s IH]; intros [|n]; simpl; auto.
Qed.

Lemma take_all (n : nat) (s : string) :
  String.length s <= n -> take n s = s.
Proof.
  unfold take. revert n; induction s as [|c s IH]; intros [|n] H; simpl in *;
    try reflexivity; try lia.
  f_equal. apply IH. lia.
Qed.

Lemma take_prefix (n : nat) (s : string) : prefix (take n s) s = true.
Proof.
  unfold take. revert n; induction s as [|c s IH]; intros [|n]; simpl; auto.
  destruct (ascii_dec c c); [apply IH | congruence].
Qed.

Lemma lower_append (a b : string) : lower (a ++ b) = lower a ++ lower b.
Proof. induction a as [|c a IH]; simpl; [reflexivity | now rewrite IH]. Qed.

Lemma occurs_lower_inside (before kw after : string) :
  occurs (lower kw) (lower (before ++ kw ++ after)).
Proof.
  exists (lower before), (lower after). now rewrite !lower_append.
Qed.

Lemma occurs_trans (kw s t : string) : occurs kw s -> occurs s t -> occurs kw t.
Proof.
  intros (b1 & a1 & ->) (b2 & a2 & ->).
  exists (b2 ++ b1), (a1 ++ a2).
  induction b2 as [|c b2 IH]; simpl.
  - induction b1 as [|c b1 IH1]; simpl.
    + induction kw as [|c kw IHk]; simpl; [reflexivity | now rewrite IHk].
    + now rewrite IH1.
  - now rewrite IH.
Qed.

Lemma hit_extend (keywords : list string) (before q after : string) :
  hit keywords q -> hit keywords (before ++ q ++ after).
Proof.
  intros (kw & Hin & Hocc). exists kw. split; [exact Hin|].
  apply (occurs_trans kw (lower q)); [exact Hocc|].
  exists (lower before), (lower after). now rewrite !lower_append.
Qed.

(** *** [ask_question] *)

(** Every outcome the try block returns has this shape. *)
Lemma ask_question_try_shape (self : RAGEngine.t) (q : string)
      (scope : option string) (o : Outcome) :
  ask_question_try self q scope = Ok o ->
  question o = q /\ template_used o = "PromptTemplate" /\
  file_filter o = scope.
Proof.
  unfold ask_question_try.
  destruct (_select_template self q) as [tpl|e]; cbn [rbind]; [|discriminate].
  destruct (qa_chain self tpl _ q) as [[text docs]|e]; cbn [rbind];
    [|discriminate].
  match goal with
  | |- context [rbind ?m _] => destruct m as [kept|e]
  end; cbn [rbind]; [|discriminate].
  intros [= <-]. repeat split.
Qed.

(** X11. Every outcome repeats the question and the resolved filter.
    Its template field is the class name PromptTemplate when the body
    succeeded, whichever of the four templates was selected, and the
    word error exactly when the body raised. *)
Theorem ask_question_outcome_fields
        (vs : string -> nat -> result (list Document))
        (model : string -> result string)
        (q : string) (ff : option string) :
  let self := init vs model in
  let scope := resolve_file_filter q ff in
  let o := ask_question self q ff in
  question o = q /\
  file_filter o = scope /\
  (template_used o = "PromptTemplate" <->
   exists o', ask_question_try self q scope = Ok o') /\
  (template_used o = "error" <->
   exists e, ask_question_try self q scope = Raise e).
Proof.
  cbv zeta. unfold ask_question.
  destruct (ask_question_try (init vs model) q (resolve_file_filter q ff))
    as [o|e] eqn:E.
  - destruct (ask_question_try_shape _ _ _ _ E) as (Hq & Ht & Hf).
    rewrite Hq, Ht, Hf. repeat split; try discriminate; eauto.
    intros [e He]. discriminate.
  - cbn. repeat split; try discriminate; eauto.
    intros [o Ho]. discriminate.
Qed.

(** X12. Without a scope (none given, none found in the question) the
    six nearest chunks are retrieved and all of them, in the order of the
    retrieval, become the sources; the answer is what the model returned
    for the prompt filled with their texts. *)
Theorem unscoped_question_keeps_all_sources
        (vs : string -> nat -> result (list Document))
        (model : string -> result string)
        (q : string) (ff : option string)
        (docs : list Document) (o : Outcome) :
  resolve_file_filter q ff = None ->
  vs q 6 = Ok docs ->
  ask_question (init vs model) q ff = o ->
  template_used o <> "error" ->
  sources o = map format_source docs /\
  file_filter o = None /\
  exists tpl filled,
    _select_template (init vs model) q = Ok tpl /\
    format tpl [("context", stuff_context docs); ("question", q)]
      = Ok filled /\
    model filled = Ok (answer o).
Proof.
  intros Hres Hvs Ho Hok. unfold ask_question in Ho. rewrite Hres in Ho.
  destruct (select_template_total vs model q) as [tpl Htpl].
  unfold ask_question_try, qa_chain in Ho. rewrite Htpl in Ho.
  cbn [rbind vectorstore llm init truthy] in Ho. rewrite Hvs in Ho.
  cbn [rbind] in Ho.
  destruct (format tpl _) as [filled|e] eqn:Hfmt; cbn [rbind] in Ho;
    [|subst o; now elim Hok].
  destruct (model filled) as [text|e] eqn:Hllm; cbn [rbind fst snd] in Ho;
    [|subst o; now elim Hok].
  subst o. cbn. repeat split. exists tpl, filled. auto.
Qed.

Lemma unscoped_question_keeps_all_sources_witness :
  let o := ask_question (init two_chunk_store echo_llm)
                        "How old is the company?" None in
  sources o = map format_source [nike_chunk; resume_chunk] /\
  file_filter o = None /\
  exists tpl filled,
    _select_template (init two_chunk_store echo_llm)
                     "How old is the company?" = Ok tpl /\
    format tpl [("context", stuff_context [nike_chunk; resume_chunk]);
                ("question", "How old is the company?")]
      = Ok filled /\
    echo_llm filled = Ok (answer o).
Proof.
  apply (unscoped_question_keeps_all_sources
           two_chunk_store echo_llm "How old is the company?" None
           [nike_chunk; resume_chunk]);
    try reflexivity.
  vm_compute. discriminate.
Defined.

(** X13. The excerpt of a source is the first 200 characters of the
    chunk followed by three dots: it is never longer than 203 characters,
    and a chunk of at most 200 characters is shown whole, still with the
    dots. *)
Theorem format_source_excerpt (doc : Document) :
  content (format_source doc) = take 200 (page_content doc) ++ "..." /\
  prefix (take 200 (page_content doc)) (page_content doc) = true /\
  String.length (content (format_source doc))
    = Nat.min 200 (String.length (page_content doc)) + 3 /\
  String.length (content (format_source doc)) <= 203 /\
  (String.length (page_content doc) <= 200 ->
   content (format_source doc) = page_content doc ++ "...").
Proof.
  unfold format_source. cbn [content].
  split; [reflexivity|]. split; [apply take_prefix|].
  rewrite length_append, length_take. cbn [String.length].
  split; [reflexivity|]. split; [lia|].
  intros H. now rewrite take_all.
Qed.

Lemma format_source_excerpt_witness :
  content (format_source nike_chunk)
  = "Nike revenue was 51.2 billion dollars in fiscal 2023....".
Proof.
  apply (proj2 (proj2 (proj2 (proj2 (format_source_excerpt nike_chunk))))).
  cbn. lia.
Defined.

(** X14. The scope read from a question is none or one of the four
    group names, so a resolved scope is never the empty string: eight
    chunks are retrieved exactly when the outcome reports a filter, six
    otherwise. *)
Theorem resolved_scope_range (q : string) (ff : option string) :
  In (_extract_file_filter q)
     [None; Some "resume"; Some "nike"; Some "research";
      Some "business plan"] /\
  (truthy (resolve_file_filter q ff) = true <->
   resolve_file_filter q ff <> None).
Proof.
  split.
  - unfold _extract_file_filter, file_indicators, first_indicated.
    repeat match goal with
           | |- context [if ?b then _ else _] => destruct b
           end; simpl; tauto.
  - destruct (resolve_file_filter q ff) as [f|] eqn:E.
    + rewrite (resolve_truthy q ff f E). split; [discriminate | reflexivity].
    + simpl. split; [discriminate | congruence].
Qed.

(** The loop raises as soon as a source is not a string. *)
Lemma filter_sources_raises (f : string) (docs : list Document) :
  (exists d n, In d docs /\
               get (metadata d) "source_file" (VStr EmptyString) = VInt n) ->
  filter_sources f docs =
  Raise (Exception "AttributeError" "'int' object has no attribute 'lower'").
Proof.
  intros (d & n & Hin & Hget).
  induction docs as [|d0 docs IH]; [contradiction|]. simpl.
  destruct (get (metadata d0) "source_file" (VStr EmptyString)) as [s|m] eqn:E0;
    cbn [value_lower rbind]; [|reflexivity].
  destruct Hin as [->|Hin]; [congruence|].
  rewrite (IH Hin). reflexivity.
Qed.

(** X15. With a scope set, a retrieved chunk whose source_file is not a
    string makes the filtering loop raise: the outcome is the degraded
    one, with no sources. The loop runs after the model was called, so
    an answer the model did return is replaced by the error message. *)
Theorem non_string_source_degrades
        (vs : string -> nat -> result (list Document))
        (model : string -> result string)
        (q : string) (ff : option string) (f : string)
        (docs : list Document) :
  resolve_file_filter q ff = Some f ->
  vs q 8 = Ok docs ->
  (exists d n, In d docs /\
               get (metadata d) "source_file" (VStr EmptyString) = VInt n) ->
  let o := ask_question (init vs model) q ff in
  template_used o = "error" /\
  sources o = [] /\
  (forall tpl filled text,
      _select_template (init vs model) q = Ok tpl ->
      format tpl [("context", stuff_context docs); ("question", q)]
        = Ok filled ->
      model filled = Ok text ->
      answer o
      = "Error processing question: 'int' object has no attribute 'lower'").
Proof.
  intros Hres Hvs Hbad. cbv zeta.
  destruct (select_template_total vs model q) as [tpl Htpl].
  pose proof (ask_question_try_scoped vs model q f docs tpl
                (resolve_truthy _ _ _ Hres) Hvs Htpl) as Htry.
  pose proof (filter_sources_raises f docs Hbad) as He.
  unfold ask_question. rewrite Hres, Htry.
  destruct (format tpl _) as [filled|e1] eqn:Hfmt; cbn [rbind].
  2:{ cbn. split; [reflexivity|]. split; [reflexivity|].
      intros tpl' filled' text Ht Hf _.
      rewrite Htpl in Ht. injection Ht as <-. congruence. }
  destruct (model filled) as [text|e2] eqn:Hllm; cbn [rbind].
  - rewrite He. cbn. split; [reflexivity|]. split; reflexivity.
  - cbn. split; [reflexivity|]. split; [reflexivity|].
    intros tpl' filled' text Ht Hf Hm.
    rewrite Htpl in Ht. injection Ht as <-. congruence.
Qed.

Lemma non_string_source_degrades_witness :
  let o := ask_question (init odd_store echo_llm) nike_question None in
  template_used o = "error" /\
  sources o = [] /\
  (forall tpl filled text,
      _select_template (init odd_store echo_llm) nike_question = Ok tpl ->
      format tpl [("context", stuff_context [nike_chunk; odd_chunk]);
                  ("question", nike_question)]
        = Ok filled ->
      echo_llm filled = Ok text ->
      answer o
      = "Error processing question: 'int' object has no attribute 'lower'").
Proof.
  apply (non_string_source_degrades
           odd_store echo_llm nike_question None "nike"
           [nike_chunk; odd_chunk]); try reflexivity.
  exists odd_chunk, 7%Z. split; [right; now left | reflexivity].
Defined.

(** X16. A chunk with no source_file entry never passes the filter of a
    scope, and its source is reported as Unknown. *)
Theorem missing_source_is_filtered_out (f : string) (doc : Document) :
  f <> EmptyString ->
  (forall default, get (metadata doc) "source_file" default = default) ->
  filter_sources f [doc] = Ok [] /\
  source_matches f doc = false /\
  source (format_source doc) = VStr "Unknown".
Proof.
  intros Hf Hmiss. unfold source_matches, format_source. cbn [filter_sources source].
  rewrite !Hmiss. cbn [value_lower rbind lower].
  destruct f as [|c f]; [congruence|]. cbn [lower str_in prefix orb].
  repeat split.
Qed.

Lemma missing_source_is_filtered_out_witness :
  filter_sources "nike" [bare_chunk] = Ok [] /\
  source_matches "nike" bare_chunk = false /\
  source (format_source bare_chunk) = VStr "Unknown".
Proof.
  apply (missing_source_is_filtered_out "nike" bare_chunk).
  - discriminate.
  - reflexivity.
Defined.

(** X17. Filling any of the four templates never raises, and the filled
    prompt is the template's text with the context and the question put
    in as they are, once each and in this order: braces inside a chunk or
    a question are not read as fields. *)
Theorem templates_fill_verbatim :
  Forall
    (fun tpl =>
       exists head tail,
         forall context question,
           format tpl [("context", context); ("question", question)]
           = Ok (head ++ context ++ nl ++ nl ++ "Question: " ++ question
                 ++ tail))
    [BASIC_QA_TEMPLATE; FINANCIAL_TEMPLATE;
     SUMMARY_TEMPLATE; COMPARISON_TEMPLATE].
Proof.
  repeat constructor.
  - exists (take 587 (template BASIC_QA_TEMPLATE)), (nl ++ nl ++ "Answer:").
    intros c q. vm_compute. reflexivity.
  - exists (take 466 (template FINANCIAL_TEMPLATE)), (nl ++ nl ++ "Analysis:").
    intros c q. vm_compute. reflexivity.
  - exists (take 394 (template SUMMARY_TEMPLATE)), (nl ++ nl ++ "Summary:").
    intros c q. vm_compute. reflexivity.
  - exists (take 377 (template COMPARISON_TEMPLATE)),
      (nl ++ nl ++ "Comparison:").
    intros c q. vm_compute. reflexivity.
Qed.

End AnswerMore.

(** ** From the file to the filter *)

Module PipelineMore.

Import PromptTemplates RAGEngine DocumentProcessor PdfProcessor PyFacts
       RouterFacts ChunkerFacts AnswerFacts AnswerMore Examples MoreExamples.
Local Open Scope py_scope.

Lemma Ok_inj {A} (a b : A) : Ok a = Ok b -> a = b.
Proof. now intros [= ->]. Qed.

Lemma stamped_source (file_path : string) (chunks : list Document)
      (chunk : Document) (default : value) :
  In chunk (add_file_metadata file_path chunks) ->
  get (metadata chunk) "source_file" default = VStr file_path /\
  get (metadata chunk) "file_type" default = VStr "pdf".
Proof.
  unfold add_file_metadata. rewrite in_map_iff. intros [c [<- _]]. simpl.
  split.
  - rewrite get_set_other by discriminate. apply get_set_same.
  - apply get_set_same.
Qed.

(** X18. [process_pdf] has no handler, so it returns chunks only when
    the loader and the splitter both returned. Every chunk it returns is
    a chunk of the splitter with source_file set to the path and
    file_type set to pdf, replacing earlier values of these keys; the
    text and every other entry, the page among them, are kept. *)
Theorem process_pdf_stamps_chunks
        (self : PdfProcessor.t) (file_path : string)
        (chunks : list Document) :
  process_pdf self file_path = Ok chunks ->
  exists pages split,
    loader self file_path = Ok pages /\
    splitter self text_splitter pages = Ok split /\
    map page_content chunks = map page_content split /\
    Forall (fun chunk =>
              forall default,
                get (metadata chunk) "source_file" default = VStr file_path /\
                get (metadata chunk) "file_type" default = VStr "pdf")
           chunks /\
    (forall key default,
        key <> "source_file" -> key <> "file_type" ->
        map (fun chunk => get (metadata chunk) key default) chunks
        = map (fun chunk => get (metadata chunk) key default) split).
Proof.
  unfold process_pdf, load_pdf, split_documents.
  destruct (loader self file_path) as [pages|e]; cbn [rbind]; [|discriminate].
  destruct (splitter self text_splitter pages) as [split|e] eqn:Hsplit;
    cbn [rbind]; [|discriminate].
  intros [= <-]. exists pages, split.
  split; [reflexivity|]. split; [exact Hsplit|]. split; [|split].
  - unfold add_file_metadata. rewrite map_map. reflexivity.
  - apply Forall_forall. intros chunk Hin default.
    now apply stamped_source with (chunks := split).
  - intros key default H1 H2. unfold add_file_metadata. rewrite map_map.
    apply map_ext. intros c. cbn [metadata].
    rewrite !get_set_other; auto.
Qed.

Lemma process_pdf_stamps_chunks_witness :
  exists pages split,
    loader two_page_processor "data/documents/Nike_10K.pdf" = Ok pages /\
    splitter two_page_processor text_splitter pages = Ok split /\
    map page_content
        [mkDocument "Page one."
           [("source", VStr "data/documents/Nike_10K.pdf"); ("page", VInt 0);
            ("source_file", VStr "data/documents/Nike_10K.pdf");
            ("file_type", VStr "pdf")];
         mkDocument "Page two."
           [("source", VStr "data/documents/Nike_10K.pdf"); ("page", VInt 1);
            ("source_file", VStr "data/documents/Nike_10K.pdf");
            ("file_type", VStr "pdf")]]
    = map page_content split /\
    Forall (fun chunk =>
              forall default,
                get (metadata chunk) "source_file" default
                = VStr "data/documents/Nike_10K.pdf" /\
                get (metadata chunk) "file_type" default = VStr "pdf")
           [mkDocument "Page one."
              [("source", VStr "data/documents/Nike_10K.pdf"); ("page", VInt 0);
               ("source_file", VStr "data/documents/Nike_10K.pdf");
               ("file_type", VStr "pdf")];
            mkDocument "Page two."
              [("source", VStr "data/documents/Nike_10K.pdf"); ("page", VInt 1);
               ("source_file", VStr "data/documents/Nike_10K.pdf");
               ("file_type", VStr "pdf")]] /\
    (forall key default,
        key <> "source_file" -> key <> "file_type" ->
        map (fun chunk => get (metadata chunk) key default)
            [mkDocument "Page one."
               [("source", VStr "data/documents/Nike_10K.pdf"); ("page", VInt 0);
                ("source_file", VStr "data/documents/Nike_10K.pdf");
                ("file_type", VStr "pdf")];
             mkDocument "Page two."
               [("source", VStr "data/documents/Nike_10K.pdf"); ("page", VInt 1);
                ("source_file", VStr "data/documents/Nike_10K.pdf");
                ("file_type", VStr "pdf")]]
        = map (fun chunk => get (metadata chunk) key default) split).
Proof.
  apply (process_pdf_stamps_chunks
           two_page_processor "data/documents/Nike_10K.pdf").
  reflexivity.
Defined.

(** The filter on chunks that all come from one file. *)
Lemma filter_sources_stamped (f file_path : string) (chunks : list Document) :
  filter_sources f (add_file_metadata file_path chunks) =
  Ok (if str_in (lower f) (lower file_path)
      then add_file_metadata file_path chunks else []).
Proof.
  unfold add_file_metadata.
  induction chunks as [|c chunks IH]; cbn [map filter_sources].
  - now destruct (str_in _ _).
  - cbn [metadata]. rewrite get_set_other by discriminate.
    rewrite get_set_same. cbn [value_lower rbind]. rewrite IH. cbn [rbind].
    now destruct (str_in (lower f) (lower file_path)).
Qed.

(** X19. On the chunks [process_pdf] made from one file the filtering
    loop never raises, and it keeps all of them or none: all exactly when
    the lower-cased scope occurs in the lower-cased path of the file. *)
Theorem process_pdf_chunks_filter_together
        (self : PdfProcessor.t) (file_path f : string)
        (chunks : list Document) :
  process_pdf self file_path = Ok chunks ->
  (occurs (lower f) (lower file_path) -> filter_sources f chunks = Ok chunks) /\
  (~ occurs (lower f) (lower file_path) -> filter_sources f chunks = Ok []).
Proof.
  unfold process_pdf, load_pdf, split_documents.
  destruct (loader self file_path) as [pages|e]; cbn [rbind]; [|discriminate].
  destruct (splitter self text_splitter pages) as [split|e]; cbn [rbind];
    [|discriminate].
  intros [= <-]. rewrite filter_sources_stamped, <- str_in_iff.
  destruct (str_in (lower f) (lower file_path)); split; intros H;
    try reflexivity; congruence.
Qed.

Lemma process_pdf_chunks_filter_together_witness :
  (occurs (lower "nike") (lower "data/documents/Nike_10K.pdf") ->
   filter_sources "nike"
     (add_file_metadata "data/documents/Nike_10K.pdf"
        [mkDocument "Page one."
           [("source", VStr "data/documents/Nike_10K.pdf"); ("page", VInt 0)];
         mkDocument "Page two."
           [("source", VStr "data/documents/Nike_10K.pdf"); ("page", VInt 1)]])
   = Ok (add_file_metadata "data/documents/Nike_10K.pdf"
        [mkDocument "Page one."
           [("source", VStr "data/documents/Nike_10K.pdf"); ("page", VInt 0)];
         mkDocument "Page two."
           [("source", VStr "data/documents/Nike_10K.pdf"); ("page", VInt 1)]]))
  /\
  (~ occurs (lower "nike") (lower "data/documents/Nike_10K.pdf") ->
   filter_sources "nike"
     (add_file_metadata "data/documents/Nike_10K.pdf"
        [mkDocument "Page one."
           [("source", VStr "data/documents/Nike_10K.pdf"); ("page", VInt 0)];
         mkDocument "Page two."
           [("source", VStr "data/documents/Nike_10K.pdf"); ("page", VInt 1)]])
   = Ok []).
Proof.
  apply (process_pdf_chunks_filter_together
           two_page_processor "data/documents/Nike_10K.pdf" "nike").
  reflexivity.
Defined.

(** X20. The document select box: the entry All Documents passes no
    filter, so the scope is read from the question; any other entry is
    passed as the filter and overrides the question. The chunks of the
    selected file, stamped with its path under data/documents, all pass
    that filter, whatever the case of the letters in the name. *)
Theorem selected_file_matches_its_chunks
        (filename q : string) (chunks : list Document) :
  resolve_file_filter q (App.selected_filter "All Documents")
    = _extract_file_filter q /\
  (filename <> "All Documents" -> filename <> EmptyString ->
   resolve_file_filter q (App.selected_filter filename) = Some filename) /\
  filter_sources filename
    (add_file_metadata (App.documents_path filename) chunks)
  = Ok (add_file_metadata (App.documents_path filename) chunks).
Proof.
  split; [reflexivity|]. split.
  - intros Hall Hne. unfold App.selected_filter.
    apply String.eqb_neq in Hall. rewrite Hall. cbn [negb].
    unfold resolve_file_filter.
    destruct filename; [congruence | reflexivity].
  - rewrite filter_sources_stamped.
    assert (H : str_in (lower filename)
                       (lower (App.documents_path filename)) = true).
    { apply str_in_iff. unfold App.documents_path.
      exists (lower "data/documents/"), EmptyString.
      rewrite lower_append. f_equal.
      induction (lower filename) as [|c s IH]; simpl; congruence. }
    now rewrite H.
Qed.

Lemma selected_file_matches_its_chunks_witness :
  resolve_file_filter nike_question (App.selected_filter "Nike_10K.pdf")
  = Some "Nike_10K.pdf".
Proof.
  apply (proj1 (proj2 (selected_file_matches_its_chunks
                         "Nike_10K.pdf" nike_question []))).
  - discriminate.
  - discriminate.
Defined.

(** X21. A financial keyword decides the style whatever else the
    question says, and a keyword of the resume group decides the scope:
    text put before or after such a question changes neither. *)
Theorem routing_survives_extension
        (vs : string -> nat -> result (list Document))
        (model : string -> result string)
        (before q after : string) :
  (_select_template (init vs model) q = Ok FINANCIAL_TEMPLATE ->
   _select_template (init vs model) (before ++ q ++ after)
   = Ok FINANCIAL_TEMPLATE) /\
  (_extract_file_filter q = Some "resume" ->
   _extract_file_filter (before ++ q ++ after) = Some "resume").
Proof.
  split.
  - intros H.
    assert (Hhit : hit financial_keywords q).
    { unfold _select_template in H. apply any_in_iff.
      destruct (any_in financial_keywords (lower q)); [reflexivity|].
      exfalso. destruct templates_differ as (Hfs & Hfc & Hfb & _).
      destruct (any_in summary_keywords (lower q));
        [|destruct (any_in comparison_keywords (lower q))];
        cbn [item init templates String.eqb Ascii.eqb Bool.eqb] in H;
        apply Ok_inj in H;
        first [ exact (Hfs (eq_sym H)) | exact (Hfc (eq_sym H))
              | exact (Hfb (eq_sym H)) ]. }
    apply (hit_extend _ before q after), any_in_iff in Hhit.
    unfold _select_template. now rewrite Hhit.
  - intros H.
    assert (Hhit : hit ["resume"; "cv"; "my resume"; "my cv"] q).
    { apply any_in_iff. unfold _extract_file_filter, file_indicators in H.
      cbn [first_indicated] in H.
      destruct (any_in ["resume"; "cv"; "my resume"; "my cv"] (lower q));
        [reflexivity|].
      repeat match type of H with
             | (if ?b then _ else _) = _ => destruct b
             end; discriminate. }
    apply (hit_extend _ before q after), any_in_iff in Hhit.
    unfold _extract_file_filter, file_indicators. cbn [first_indicated].
    now rewrite Hhit.
Qed.

Lemma routing_survives_extension_witness :
  _select_template (init two_chunk_store echo_llm)
                   ("Please compare: " ++ "What is Nike's revenue in 2023?"
                    ++ " Summarize it.")
  = Ok FINANCIAL_TEMPLATE /\
  _extract_file_filter ("About Nike: " ++ "summarize my resume" ++ " please")
  = Some "resume".
Proof.
  split.
  - apply (proj1 (routing_survives_extension
                    two_chunk_store echo_llm
                    "Please compare: " "What is Nike's revenue in 2023?"
                    " Summarize it.")).
    reflexivity.
  - apply (proj2 (routing_survives_extension
                    two_chunk_store echo_llm
                    "About Nike: " "summarize my resume" " please")).
    reflexivity.
Defined.

End PipelineMore.

(** ** The reset and retry of [create_embeddings] *)

Module RetryFacts.

Import EmbeddingManager ManagerSpec ManagerFacts ManagerMore PyFacts
       Examples MoreExamples.
Local Open Scope io_scope.
Local Open Scope list_scope.







End RetryFacts.
